(** * Conversation dashboard: validation, analysis and text normalisation

    A shallow embedding of [conv_viz.py].  The program receives the value
    produced by [json.load], validates it ([parse_conversation]), stores it
    in the session ([main]), computes a few aggregates
    ([analyze_conversation]) and strips bold markup before display
    ([normalize_text]).

    Python values are modelled by the type [json] of the values [json.load]
    can produce; the Python operators the program applies to them ([in],
    subscripting, truth testing, iteration, [dict.get]) are modelled with
    the exceptions they raise. *)

From Stdlib Require Import List String Ascii Bool ZArith Lia Arith.
From Stdlib Require Import Sorting.Sorted Sorting.Permutation Floats.PrimFloat.
From Stdlib Require Import QArith.
Import ListNotations.
Close Scope Q_scope.
Open Scope string_scope.
Open Scope list_scope.

(** ** Values *)

(** What [json.load] returns: [None], [bool], [int], [float], [str],
    [list] and [dict].  A [dict] keeps its insertion order, so it is an
    association list; a key is looked up from the front. *)
#[warnings="-register-all"]
Inductive json : Type :=
| JNull
| JBool (b : bool)
| JInt (n : Z)
| JFloat (x : float)
| JStr (s : string)
| JArr (items : list json)
| JObj (fields : list (string * json)).

(** ** Exceptions and the error monad *)

Inductive exn : Type :=
| TypeError (msg : string)
| KeyError (key : string)
| AttributeError (msg : string)
| JSONDecodeError (msg : string).

(** [str(e)], as the f-strings of the program print it. *)
Definition exn_message (e : exn) : string :=
  match e with
  | TypeError msg => msg
  | KeyError key => "'" ++ key ++ "'"
  | AttributeError msg => msg
  | JSONDecodeError msg => msg
  end.

Inductive result (A : Type) : Type :=
| Ok (a : A)
| Raise (e : exn).
Arguments Ok {A} a.
Arguments Raise {A} e.

Definition bind {A B : Type} (m : result A) (k : A -> result B) : result B :=
  match m with
  | Ok a => k a
  | Raise e => Raise e
  end.

Notation "x <- m ;; k" := (bind m (fun x => k))
  (at level 61, m at next level, right associativity).

(** ** Python operators on [json] values *)

Definition type_name (v : json) : string :=
  match v with
  | JNull => "NoneType"
  | JBool _ => "bool"
  | JInt _ => "int"
  | JFloat _ => "float"
  | JStr _ => "str"
  | JArr _ => "list"
  | JObj _ => "dict"
  end.

(** [bool(v)]: [None], [False], zero, the empty string, the empty list and
    the empty dict are false. *)
Definition truthy (v : json) : bool :=
  match v with
  | JNull => false
  | JBool b => b
  | JInt n => negb (Z.eqb n 0)
  | JFloat x => negb (PrimFloat.eqb x PrimFloat.zero)
  | JStr s => negb (String.eqb s "")
  | JArr items => match items with [] => false | _ :: _ => true end
  | JObj fields => match fields with [] => false | _ :: _ => true end
  end.

(** [bool(l)] for a list. *)
Definition list_truthy {A : Type} (l : list A) : bool :=
  match l with
  | [] => false
  | _ :: _ => true
  end.

(** [needle in hay] for two strings: substring search. *)
Fixpoint is_substring (needle hay : string) : bool :=
  String.prefix needle hay ||
  match hay with
  | EmptyString => false
  | String _ rest => is_substring needle rest
  end.

Fixpoint lookup (key : string) (fields : list (string * json)) : option json :=
  match fields with
  | [] => None
  | (k, v) :: rest => if String.eqb key k then Some v else lookup key rest
  end.

Definition has_key (key : string) (fields : list (string * json)) : bool :=
  match lookup key fields with
  | Some _ => true
  | None => false
  end.

(** ['key' == item] for a list item: only an equal string is equal. *)
Definition str_equals (key : string) (item : json) : bool :=
  match item with
  | JStr s => String.eqb key s
  | _ => false
  end.

(** [key in container], where [key] is a string literal: key membership for
    a dict, substring search for a string, element equality for a list, and
    [TypeError] for everything else (the text is CPython 3.11's). *)
Definition py_in (key : string) (container : json) : result bool :=
  match container with
  | JObj fields => Ok (has_key key fields)
  | JStr s => Ok (is_substring key s)
  | JArr items => Ok (existsb (str_equals key) items)
  | v => Raise (TypeError ("argument of type '" ++ type_name v ++ "' is not iterable"))
  end.

Definition py_not_in (key : string) (container : json) : result bool :=
  b <- py_in key container ;; Ok (negb b).

(** [container[key]], where [key] is a string literal. *)
Definition py_getitem (container : json) (key : string) : result json :=
  match container with
  | JObj fields =>
      match lookup key fields with
      | Some v => Ok v
      | None => Raise (KeyError key)
      end
  | JStr _ => Raise (TypeError "string indices must be integers, not 'str'")
  | JArr _ => Raise (TypeError "list indices must be integers or slices, not str")
  | v => Raise (TypeError ("'" ++ type_name v ++ "' object is not subscriptable"))
  end.

(** [for x in v]: the items of a list, the keys of a dict, the characters
    of a string. *)
Definition py_iter (v : json) : result (list json) :=
  match v with
  | JArr items => Ok items
  | JObj fields => Ok (map (fun kv => JStr (fst kv)) fields)
  | JStr s => Ok (map (fun c => JStr (String c EmptyString)) (list_ascii_of_string s))
  | v => Raise (TypeError ("'" ++ type_name v ++ "' object is not iterable"))
  end.

(** [v.get(key, default)]: only a dict has the method. *)
Definition py_get (v : json) (key : string) (default : json) : result json :=
  match v with
  | JObj fields =>
      match lookup key fields with
      | Some x => Ok x
      | None => Ok default
      end
  | v => Raise (AttributeError ("'" ++ type_name v ++ "' object has no attribute 'get'"))
  end.

(** ** Notices shown to the user *)

Inductive notice : Type :=
| st_error (text : string)
| st_success (text : string).

Definition msg_expected_list : string :=
  "Invalid conversation format. Expected a list of messages.".

Definition msg_missing_field : string :=
  "Invalid message format. Each message must have 'content' and 'role' fields.".

(** ** [parse_conversation] *)

(** The validation loop.  [Ok true]: the loop ran to its end; [Ok false]:
    it hit a message without one of the fields and returned early. *)
Fixpoint check_messages (messages : list json) : result bool :=
  match messages with
  | [] => Ok true
  | msg :: rest =>
      no_content <- py_not_in "content" msg ;;
      if no_content then Ok false
      else
        no_role <- py_not_in "role" msg ;;
        if no_role then Ok false else check_messages rest
  end.

(** The body of the [try] block: the returned list and the notices. *)
Definition parse_conversation_body (data : json) : result (list json * list notice) :=
  let messages := match data with JArr items => items | _ => [] end in
  if negb (list_truthy messages) then
    Ok ([], [st_error msg_expected_list])
  else
    complete <- check_messages messages ;;
    if complete then Ok (messages, [])
    else Ok ([], [st_error msg_missing_field]).

Definition parse_conversation (data : json) : list json * list notice :=
  match parse_conversation_body data with
  | Ok r => r
  | Raise e => ([], [st_error ("Error parsing data: " ++ exn_message e)])
  end.

(** ** Session state and the upload step of [main] *)

Record session_state : Type := {
  messages : list json;
  conversation_history : list json
}.

Definition initial_state : session_state :=
  {| messages := []; conversation_history := [] |}.

(** The sidebar of [main].  [uploaded_file] is [None] when nothing was
    uploaded, and otherwise what [json.load] did with the file. *)
Definition main_upload (st : session_state) (uploaded_file : option (result json))
  : session_state * list notice :=
  match uploaded_file with
  | None => (st, [])
  | Some loaded =>
      match loaded with
      | Raise e => (st, [st_error ("Error loading file: " ++ exn_message e)])
      | Ok data =>
          let '(msgs, out) := parse_conversation data in
          if list_truthy msgs then
            ({| messages := msgs; conversation_history := msgs |},
             out ++ [st_success "File uploaded successfully!"])
          else (st, out)
      end
  end.

(** ** [analyze_conversation] *)

(** [field in msg and msg[field]], tested for truth: line 59 and 60 and
    the guard of the loop of line 68. *)
Definition present_and_nonempty (field : string) (msg : json) : result bool :=
  present <- py_in field msg ;;
  if present then v <- py_getitem msg field ;; Ok (truthy v)
  else Ok false.

(** [sum(1 for msg in messages if field in msg and msg[field])], the sum
    running from 0 over the messages in order. *)
Fixpoint sum_ones (field : string) (messages : list json) (total : Z) : result Z :=
  match messages with
  | [] => Ok total
  | msg :: rest =>
      counted <- present_and_nonempty field msg ;;
      sum_ones field rest (if counted then total + 1 else total)%Z
  end.

Definition count_messages_with (field : string) (messages : list json) : result Z :=
  sum_ones field messages 0%Z.

(** The inner loop of lines 69 to 71: [tool_calls] is the list built so far. *)
Fixpoint append_tool_names (entries : list json) (tool_calls : list json)
  : result (list json) :=
  match entries with
  | [] => Ok tool_calls
  | tool_call :: rest =>
      has_function <- py_in "function" tool_call ;;
      if has_function then
        f <- py_getitem tool_call "function" ;;
        name <- py_get f "name" (JStr "unknown") ;;
        append_tool_names rest (tool_calls ++ [name])
      else append_tool_names rest tool_calls
  end.

(** The outer loop of lines 67 to 71. *)
Fixpoint collect_tool_names (messages : list json) (tool_calls : list json)
  : result (list json) :=
  match messages with
  | [] => Ok tool_calls
  | msg :: rest =>
      has_calls <- present_and_nonempty "tool_calls" msg ;;
      if has_calls then
        v <- py_getitem msg "tool_calls" ;;
        entries <- py_iter v ;;
        tool_calls' <- append_tool_names entries tool_calls ;;
        collect_tool_names rest tool_calls'
      else collect_tool_names rest tool_calls
  end.

(** Structural equality of values; on two strings it is string equality. *)
Fixpoint json_eqb (a b : json) : bool :=
  match a, b with
  | JNull, JNull => true
  | JBool x, JBool y => Bool.eqb x y
  | JInt x, JInt y => Z.eqb x y
  | JFloat x, JFloat y => PrimFloat.eqb x y
  | JStr x, JStr y => String.eqb x y
  | JArr xs, JArr ys =>
      (fix all2 (xs ys : list json) : bool :=
         match xs, ys with
         | [], [] => true
         | x :: xs', y :: ys' => json_eqb x y && all2 xs' ys'
         | _, _ => false
         end) xs ys
  | JObj xs, JObj ys =>
      (fix all2 (xs ys : list (string * json)) : bool :=
         match xs, ys with
         | [], [] => true
         | (k, x) :: xs', (k', y) :: ys' =>
             String.eqb k k' && json_eqb x y && all2 xs' ys'
         | _, _ => false
         end) xs ys
  | _, _ => false
  end.

(** [pd.Series(tool_calls).value_counts()], over values compared by [eqb]. *)
Section ValueCounts.

Context {A : Type} (eqb : A -> A -> bool).

Fixpoint occurrences (x : A) (l : list A) : nat :=
  match l with
  | [] => 0
  | y :: rest => (if eqb x y then 1 else 0) + occurrences x rest
  end.

(** The distinct values, in the order of their first occurrence. *)
Fixpoint distinct (l : list A) : list A :=
  match l with
  | [] => []
  | x :: rest => x :: filter (fun y => negb (eqb x y)) (distinct rest)
  end.

(** Insertion in a list ordered by descending count; among equal counts
    the inserted pair comes first. *)
Fixpoint insert_by_count (p : A * nat) (l : list (A * nat)) : list (A * nat) :=
  match l with
  | [] => [p]
  | q :: rest =>
      if Nat.leb (snd q) (snd p) then p :: q :: rest
      else q :: insert_by_count p rest
  end.

Definition sort_by_count (l : list (A * nat)) : list (A * nat) :=
  fold_right insert_by_count [] l.

(** Modelled from the spec: [Series.value_counts] belongs to the pandas
    library, which is not part of the repository.  The spec describes it:
    occurrences are counted per distinct value and the pairs are ordered
    by descending count.  The model is meant for a series of strings, which
    is what the names of well-formed tool calls are: pandas leaves nulls
    out of the counts and raises on values that cannot be hashed. *)
Definition value_counts (l : list A) : list (A * nat) :=
  sort_by_count (map (fun x => (x, occurrences x l)) (distinct l)).

End ValueCounts.

(** Lines 66 to 73: the names are collected, and counted when there are
    any. *)
Definition distribution_of_tool_calls (messages : list json)
  : result (option (list (json * nat))) :=
  tool_calls <- collect_tool_names messages [] ;;
  Ok (if list_truthy tool_calls then Some (value_counts json_eqb tool_calls)
      else None).

(** The four results of [analyze_conversation]; [None] is Python's [None].
    [Series] is the type of what pandas computes. *)
Record analysis (Series : Type) : Type := {
  message_counts : option Series;
  avg_length : option Series;
  tool_calls_count : option Z;
  tool_distribution : option (list (json * nat))
}.
Arguments message_counts {Series} a.
Arguments avg_length {Series} a.
Arguments tool_calls_count {Series} a.
Arguments tool_distribution {Series} a.

Section Analysis.

(** The pandas calls of lines 53, 56 and 63 are library code; they are
    parameters of the analysis, each free to return or to raise. *)
Variables DataFrame Series : Type.
(** [pd.DataFrame(messages)] *)
Variable pd_DataFrame : list json -> result DataFrame.
(** [df['role'].value_counts()] *)
Variable role_value_counts : DataFrame -> result Series.
(** [df.groupby('role')['content'].apply(lambda x: x.str.len().mean())] *)
Variable mean_content_length_by_role : DataFrame -> result Series.

Definition analyze_conversation (messages : list json) : result (analysis Series) :=
  if negb (list_truthy messages) then
    Ok {| message_counts := None; avg_length := None;
          tool_calls_count := None; tool_distribution := None |}
  else
    df <- pd_DataFrame messages ;;
    message_counts <- role_value_counts df ;;
    tool_calls_count <- count_messages_with "tool_calls" messages ;;
    tool_responses_count <- count_messages_with "tool_responses" messages ;;
    avg_length <- mean_content_length_by_role df ;;
    tool_distribution <- distribution_of_tool_calls messages ;;
    Ok {| message_counts := Some message_counts; avg_length := Some avg_length;
          tool_calls_count := Some tool_calls_count;
          tool_distribution := tool_distribution |}.

End Analysis.
Arguments analyze_conversation {DataFrame Series} pd_DataFrame role_value_counts
  mean_content_length_by_role messages.

(** ** [normalize_text] *)

(** The fragment of Python's regular expressions that the pattern of
    [normalize_text] is written in.  A group carries its number. *)
Inductive regex : Type :=
| Chr (c : ascii)
| AnyChar
| Cat (r1 r2 : regex)
| LazyPlus (r : regex)
| Group (index : nat) (r : regex).

Definition newline : ascii := "010"%char.

Definition captures : Type := list (nat * list ascii).

(** The loop of [r+?], [step] being the matcher of [r]: after each
    repetition the rest of the pattern is tried first, and one more
    repetition only after that.  A repetition that consumes nothing ends
    the loop.  [fuel] bounds the number of repetitions. *)
Fixpoint lazy_repeat
    (step : list ascii -> captures -> list (list ascii * captures))
    (fuel : nat) (s : list ascii) (caps : captures)
  : list (list ascii * captures) :=
  match fuel with
  | O => []
  | S fuel' =>
      flat_map
        (fun m =>
           m :: (if Nat.ltb (List.length (fst m)) (List.length s)
                 then lazy_repeat step fuel' (fst m) (snd m) else []))
        (step s caps)
  end.

(** Backtracking matcher: every way [r] matches a prefix of [s], as the
    rest of the input and the groups captured, in the order in which the
    backtracking engine tries them.  The first one is the match the engine
    reports.  [.] matches any character but a newline. *)
Fixpoint matches (r : regex) (s : list ascii) (caps : captures)
  : list (list ascii * captures) :=
  match r with
  | Chr c =>
      match s with
      | x :: s' => if Ascii.eqb x c then [(s', caps)] else []
      | [] => []
      end
  | AnyChar =>
      match s with
      | x :: s' => if Ascii.eqb x newline then [] else [(s', caps)]
      | [] => []
      end
  | Cat r1 r2 =>
      flat_map (fun m => matches r2 (fst m) (snd m)) (matches r1 s caps)
  | LazyPlus r1 => lazy_repeat (matches r1) (S (List.length s)) s caps
  | Group index r1 =>
      map (fun m => (fst m, (index, firstn (List.length s - List.length (fst m)) s) :: snd m))
          (matches r1 s caps)
  end.

Fixpoint group (index : nat) (caps : captures) : list ascii :=
  match caps with
  | [] => []
  | (i, text) :: rest => if Nat.eqb i index then text else group index rest
  end.

(** [re.sub(pattern, template, s)], the template being a group reference
    [\index].  The scan goes from left to right: where the pattern matches,
    the match is replaced and the scan goes on after it; elsewhere one
    character is copied.  [fuel] bounds the number of steps. *)
Fixpoint re_sub_from (fuel : nat) (pattern : regex) (index : nat) (s : list ascii)
  : list ascii :=
  match fuel with
  | O => s
  | S fuel' =>
      match s with
      | [] =>
          match matches pattern [] [] with
          | m :: _ => group index (snd m)
          | [] => []
          end
      | c :: s' =>
          match matches pattern s [] with
          | m :: _ =>
              if Nat.ltb (List.length (fst m)) (List.length s)
              then group index (snd m) ++ re_sub_from fuel' pattern index (fst m)
              else group index (snd m) ++ c :: re_sub_from fuel' pattern index s'
          | [] => c :: re_sub_from fuel' pattern index s'
          end
      end
  end.

Definition re_sub (pattern : regex) (index : nat) (s : list ascii) : list ascii :=
  re_sub_from (S (List.length s)) pattern index s.

Definition star : ascii := "*"%char.

(** [r'\*\*(.+?)\*\*'] *)
Definition bold_pattern : regex :=
  Cat (Chr star) (Cat (Chr star)
    (Cat (Group 1 (LazyPlus AnyChar)) (Cat (Chr star) (Chr star)))).

Definition normalize_text (text : json) : result json :=
  if negb (truthy text) then Ok text
  else
    match text with
    | JStr s =>
        Ok (JStr (string_of_list_ascii
                    (re_sub bold_pattern 1 (list_ascii_of_string s))))
    | v => Raise (TypeError ("expected string or bytes-like object, got '"
                             ++ type_name v ++ "'"))
    end.


(** * Predicates of the specification and sample data *)

(** The test the validation loop applies to one element: both membership
    tests return [True]. *)
Definition has_required_fields (msg : json) : bool :=
  match py_in "content" msg, py_in "role" msg with
  | Ok true, Ok true => true
  | _, _ => false
  end.

(** The values [in] can be applied to. *)
Definition supports_membership (v : json) : bool :=
  match v with
  | JObj _ | JStr _ | JArr _ => true
  | _ => false
  end.

Definition is_list (v : json) : bool :=
  match v with
  | JArr _ => true
  | _ => false
  end.

(** A mapping that has both required keys, whatever their values. *)
Definition is_message (fields : list (string * json)) : bool :=
  has_key "role" fields && has_key "content" fields.

(** The predicate of the session invariant. *)
Definition all_checked (st : session_state) : Prop :=
  forallb has_required_fields (messages st) = true.

Definition sample_conversation : list (list (string * json)) :=
  [ [("role", JStr "user"); ("content", JStr "hello")];
    [("role", JStr "assistant"); ("content", JStr "");
     ("tool_calls", JArr [JObj [("function", JObj [("name", JStr "search")])]])];
    [("role", JStr "tool"); ("content", JNull);
     ("tool_responses", JArr [JObj [("content", JStr "**done**")]])] ].

Definition sample_state : session_state :=
  {| messages := map JObj sample_conversation;
     conversation_history := map JObj sample_conversation |}.


(** A string that passes the required-field test by substring search. *)
Definition mentions_both (s : string) : bool :=
  is_substring "content" s && is_substring "role" s.

Definition unsupported (v : json) : bool := negb (supports_membership v).

Definition not_iterable (v : json) : string :=
  "argument of type '" ++ type_name v ++ "' is not iterable".

(** The field is present in the mapping and its value is not falsy. *)
Definition field_nonempty (field : string) (fields : list (string * json)) : bool :=
  match lookup field fields with
  | Some v => truthy v
  | None => false
  end.

(** The number of messages whose field is present and non-empty. *)
Definition count_nonempty (field : string) (l : list (list (string * json))) : Z :=
  Z.of_nat (List.length (filter (field_nonempty field) l)).

(** The shape of the data model: a tool call is a mapping whose 'function',
    when it has one, is a mapping whose 'name', when it has one, is a
    string. *)
Definition well_formed_tool_call (tool_call : json) : bool :=
  match tool_call with
  | JObj fields =>
      match lookup "function" fields with
      | None => true
      | Some (JObj f) =>
          match lookup "name" f with
          | None | Some (JStr _) => true
          | Some _ => false
          end
      | Some _ => false
      end
  | _ => false
  end.

(** The 'tool_calls' of a message, when present and not falsy, is a
    sequence of tool calls. *)
Definition well_formed_tool_calls (fields : list (string * json)) : bool :=
  match lookup "tool_calls" fields with
  | None => true
  | Some v =>
      if truthy v then
        match v with
        | JArr entries => forallb well_formed_tool_call entries
        | _ => false
        end
      else true
  end.

(** The name one tool call contributes: its [function.name], "unknown"
    when the function has no name, and nothing when the call has no
    'function'. *)
Definition tool_call_name (tool_call : json) : list string :=
  match tool_call with
  | JObj fields =>
      match lookup "function" fields with
      | Some (JObj f) =>
          match lookup "name" f with
          | Some (JStr name) => [name]
          | None => ["unknown"]
          | Some _ => []
          end
      | _ => []
      end
  | _ => []
  end.

Definition message_tool_names (fields : list (string * json)) : list string :=
  match lookup "tool_calls" fields with
  | Some (JArr entries) => flat_map tool_call_name entries
  | _ => []
  end.

Definition conversation_tool_names (l : list (list (string * json))) : list string :=
  flat_map message_tool_names l.

(** The distribution the names give, as the analysis returns it. *)
Definition name_distribution (names : list string) : option (list (json * nat)) :=
  match names with
  | [] => None
  | _ :: _ => Some (map (fun p => (JStr (fst p), snd p)) (value_counts String.eqb names))
  end.

Definition descending {A : Type} (p q : A * nat) : Prop := snd q <= snd p.

Definition named (name : string) : json := JObj [("function", JObj [("name", JStr name)])].

Definition unnamed : json := JObj [("function", JObj [])].

(** The three tool calls of the example of the specification, in one
    message and spread over two. *)
Definition example_tool_calls : list json := [named "search"; unnamed; named "search"].

Definition example_one_message : list (list (string * json)) :=
  [ [("role", JStr "assistant"); ("content", JStr ""); ("tool_calls", JArr example_tool_calls)] ].

Definition example_two_messages : list (list (string * json)) :=
  [ [("role", JStr "assistant"); ("content", JStr "a"); ("tool_calls", JArr [named "search"])];
    [("role", JStr "user"); ("content", JStr "b"); ("tool_calls", JArr [])];
    [("role", JStr "assistant"); ("content", JStr "c");
     ("tool_calls", JArr [unnamed; named "search"])] ].

(** A message whose only tool call has no 'function'. *)
Definition call_without_function : list (list (string * json)) :=
  [ [("role", JStr "assistant"); ("content", JStr ""); ("tool_calls", JArr [JObj []])] ].

(** A message with one tool response and no tool call. *)
Definition one_tool_response : list json :=
  [ JObj [("role", JStr "tool"); ("content", JStr "ok");
          ("tool_responses", JArr [JObj [("content", JStr "r")]])] ].

(** The name of a tool call when every entry is read: its [function.name],
    and "unknown" when there is no name to read. *)
Definition stated_tool_call_name (tool_call : json) : string :=
  match tool_call with
  | JObj fields =>
      match lookup "function" fields with
      | Some (JObj f) =>
          match lookup "name" f with
          | Some (JStr name) => name
          | _ => "unknown"
          end
      | _ => "unknown"
      end
  | _ => "unknown"
  end.

Definition stated_tool_names (l : list (list (string * json))) : list string :=
  flat_map (fun fields =>
              match lookup "tool_calls" fields with
              | Some (JArr entries) => map stated_tool_call_name entries
              | _ => []
              end) l.

(** An exception of the analysis that a pandas call raised. *)
Definition pandas_raised {DataFrame Series : Type}
    (pd_DataFrame : list json -> result DataFrame)
    (role_value_counts mean_content_length_by_role : DataFrame -> result Series)
    (messages : list json) (e : exn) : Prop :=
  pd_DataFrame messages = Raise e \/
  exists df, pd_DataFrame messages = Ok df /\
             (role_value_counts df = Raise e \/
              mean_content_length_by_role df = Raise e).

(** ** Bold spans *)

(** [s] begins with a bold span: two asterisks, the content [inner], which
    is not empty and holds no line break, two asterisks, and then [rest]. *)
Definition bold_span (s inner rest : list ascii) : Prop :=
  s = star :: star :: inner ++ star :: star :: rest /\
  inner <> [] /\ ~ In newline inner.

(** The span with the shortest content among those [s] begins with. *)
Definition shortest_bold_span (s inner rest : list ascii) : Prop :=
  bold_span s inner rest /\
  forall inner' rest', bold_span s inner' rest' ->
                       List.length inner <= List.length inner'.

(** [out] is [s] with its bold spans replaced by their content, from left
    to right: where [s] begins with a span, the shortest one is replaced
    and the scan goes on after it; elsewhere the character is kept. *)
Inductive bold_stripped : list ascii -> list ascii -> Prop :=
| stripped_nil : bold_stripped [] []
| stripped_span (s inner rest out : list ascii) :
    shortest_bold_span s inner rest ->
    bold_stripped rest out ->
    bold_stripped s (inner ++ out)
| stripped_char (c : ascii) (s out : list ascii) :
    (forall inner rest, ~ bold_span (c :: s) inner rest) ->
    bold_stripped s out ->
    bold_stripped (c :: s) (c :: out).

(** The input after the two asterisks that close a span, when [s] begins
    with them. *)
Definition after_stars (s : list ascii) : option (list ascii) :=
  match s with
  | a :: b :: rest => if Ascii.eqb a star && Ascii.eqb b star then Some rest else None
  | _ => None
  end.

(** The shortest content and the rest, for the input [t] that follows the
    two opening asterisks. *)
Fixpoint first_span (t : list ascii) : option (list ascii * list ascii) :=
  match t with
  | [] => None
  | x :: t' =>
      if Ascii.eqb x newline then None
      else
        match after_stars t' with
        | Some rest => Some ([x], rest)
        | None =>
            match first_span t' with
            | Some (inner, rest) => Some (x :: inner, rest)
            | None => None
            end
        end
  end.

(** The inputs left after one, two, ... characters of [t], up to the first
    line break. *)
Fixpoint tails_until_newline (t : list ascii) : list (list ascii) :=
  match t with
  | [] => []
  | x :: t' => if Ascii.eqb x newline then [] else t' :: tails_until_newline t'
  end.

(** What the two closing asterisks leave of a candidate. *)
Definition closing (r inner : list ascii) : list (list ascii * captures) :=
  match after_stars r with
  | Some rest => [(rest, [(1, inner)])]
  | None => []
  end.

(** Stand-ins for the pandas calls, for the examples. *)
Definition sample_frame (messages : list json) : result (list json) := Ok messages.

Definition sample_series (df : list json) : result nat := Ok (List.length df).

(** A bold span whose content runs over two lines. *)
Definition two_line_bold : string := "**a" ++ String newline "b**".

Definition two_line_content : string := "a" ++ String newline "b".

(** ** The average content length per role *)






















(** * The rest of the program *)

(** ** [display_tool_content] and the conversation viewer of [main] *)

(** What is shown inside a chat message or an expander.  [st_caption name]
    is [st.caption(f"Name: {name}")]; [st_code v] is
    [st.code(json.dumps(v, indent=2), language='json')]: the value is kept
    as it is handed to [json.dumps]. *)
Inductive leaf : Type :=
| st_caption (name : json)
| st_write (text : json)
| st_text (text : json)
| st_code (value : json).

Inductive element : Type :=
| shown (l : leaf)
| st_expander (label : string) (body : list leaf).

(** [with st.chat_message(name): ...] *)
Record chat_block : Type := {
  chat_name : json;
  chat_body : list element
}.

Definition display_tool_content (content : json) : list leaf :=
  if truthy content then [st_text content] else [].

(** The loop of lines 154 to 160. *)
Fixpoint view_tool_responses (responses : list json) : result (list leaf) :=
  match responses with
  | [] => Ok []
  | tool_response :: rest =>
      has_content <- py_in "content" tool_response ;;
      text <- (if has_content then
                 content <- py_getitem tool_response "content" ;;
                 normalized <- normalize_text content ;;
                 Ok (display_tool_content normalized)
               else Ok []) ;;
      more <- view_tool_responses rest ;;
      Ok (text ++ st_code tool_response :: more)
  end.

(** [v != 'tool'] *)
Definition is_not_tool (v : json) : bool := negb (str_equals "tool" v).

(** Lines 137 and 138: the caption with the name. *)
Definition view_name (msg : json) : result (list element) :=
  name <- py_get msg "name" JNull ;;
  if truthy name then
    n <- py_getitem msg "name" ;; Ok [shown (st_caption n)]
  else Ok [].

(** Lines 141 to 143: the content, normalised, unless the role is "tool". *)
Definition view_content (msg : json) : result (list element) :=
  role <- py_get msg "role" JNull ;;
  if is_not_tool role then
    content <- py_get msg "content" JNull ;;
    if truthy content then
      c <- py_getitem msg "content" ;;
      normalized <- normalize_text c ;;
      Ok [shown (st_write normalized)]
    else Ok []
  else Ok [].

(** Lines 146 to 149: the tool calls, each dumped as it is. *)
Definition view_tool_calls (msg : json) : result (list element) :=
  calls <- py_get msg "tool_calls" JNull ;;
  if truthy calls then
    v <- py_getitem msg "tool_calls" ;;
    entries <- py_iter v ;;
    Ok [st_expander "Tool Calls" (map st_code entries)]
  else Ok [].

(** Lines 152 to 160: the tool responses. *)
Definition view_responses (msg : json) : result (list element) :=
  responses <- py_get msg "tool_responses" JNull ;;
  if truthy responses then
    v <- py_getitem msg "tool_responses" ;;
    entries <- py_iter v ;;
    body <- view_tool_responses entries ;;
    Ok [st_expander "Tool Responses" body]
  else Ok [].

Section Viewer.

(** [st.chat_message(name)] is a call into streamlit, which is not part of
    the repository: a parameter of the viewer, free to return or to raise
    on the name it is given. *)
Variable st_chat_message : json -> result unit.

(** The body of the loop of lines 135 to 160, for one message. *)
Definition view_message (msg : json) : result chat_block :=
  role <- py_get msg "role" (JStr "user") ;;
  _ <- st_chat_message role ;;
  caption <- view_name msg ;;
  written <- view_content msg ;;
  call_part <- view_tool_calls msg ;;
  response_part <- view_responses msg ;;
  Ok {| chat_name := role;
        chat_body := caption ++ written ++ call_part ++ response_part |}.

Fixpoint view_conversation (messages : list json) : result (list chat_block) :=
  match messages with
  | [] => Ok []
  | msg :: rest =>
      block <- view_message msg ;;
      blocks <- view_conversation rest ;;
      Ok (block :: blocks)
  end.

End Viewer.

(** ** The page of [main] *)

(** The widgets of the main content area.  A metric shows an integer, the
    third one as the text of [int(...)]; a chart shows what it is built
    from. *)
Inductive page_item (Series : Type) : Type :=
| st_header (text : string)
| st_subheader (text : string)
| st_metric (label : string) (value : option Z)
| pie_chart (counts : Series)
| bar_chart (distribution : list (json * nat))
| chat (block : chat_block).
Arguments st_header {Series} text.
Arguments st_subheader {Series} text.
Arguments st_metric {Series} label value.
Arguments pie_chart {Series} counts.
Arguments bar_chart {Series} distribution.
Arguments chat {Series} block.

Section Main.

Variables DataFrame Series : Type.
Variable pd_DataFrame : list json -> result DataFrame.
Variable role_value_counts : DataFrame -> result Series.
Variable mean_content_length_by_role : DataFrame -> result Series.
(** [int(pd.DataFrame(messages)['content'].str.len().mean())] *)
Variable mean_content_length : list json -> result Z.
Variable st_chat_message : json -> result unit.

(** Lines 97 to 160: nothing is shown for an empty session. *)
Definition render_page (session_messages : list json)
  : result (list (page_item Series)) :=
  if list_truthy session_messages then
    a <- analyze_conversation pd_DataFrame role_value_counts
           mean_content_length_by_role session_messages ;;
    mean <- mean_content_length session_messages ;;
    blocks <- view_conversation st_chat_message session_messages ;;
    Ok ([st_header "Conversation Analysis";
         st_metric "Total Messages" (Some (Z.of_nat (List.length session_messages)));
         st_metric "Tool Calls" (tool_calls_count a);
         st_metric "Average Message Length" (Some mean);
         st_subheader "Message Distribution"]
        ++ match message_counts a with
           | Some counts => [pie_chart counts]
           | None => []
           end
        ++ [st_subheader "Tool Usage Distribution"]
        ++ match tool_distribution a with
           | Some ((_ :: _) as distribution) => [bar_chart distribution]
           | _ => []
           end
        ++ [st_header "Conversation Viewer"]
        ++ map chat blocks)
  else Ok [].

(** One run of [main]: the upload of the sidebar, then the page for the
    session as the upload left it.  The title and the header of the sidebar
    are the same in every run and are left out.  [Raise] is a run that ends
    in an exception: [main] has no handler around the page. *)
Definition main (st : session_state) (uploaded_file : option (result json))
  : session_state * list notice * result (list (page_item Series)) :=
  let '(st', notices) := main_upload st uploaded_file in
  (st', notices, render_page (messages st')).

End Main.
Arguments render_page {DataFrame Series} pd_DataFrame role_value_counts
  mean_content_length_by_role mean_content_length st_chat_message
  session_messages.
Arguments main {DataFrame Series} pd_DataFrame role_value_counts
  mean_content_length_by_role mean_content_length st_chat_message
  st uploaded_file.

(** * Predicates for the further properties *)

(** The keys of the mappings of a conversation, values left out. *)
Definition keys_of (l : list (list (string * json))) : list (list string) :=
  map (map fst) l.

Definition is_string (v : json) : bool :=
  match v with
  | JStr _ => true
  | _ => false
  end.

Definition is_mapping (v : json) : bool :=
  match v with
  | JObj _ => true
  | _ => false
  end.

Definition not_star (c : ascii) : bool := negb (Ascii.eqb c star).

Definition plain_char (c : ascii) : bool :=
  negb (Ascii.eqb c star) && negb (Ascii.eqb c newline).

(** A tool call the loop of lines 69 to 71 gets through: one without a
    'function', or a mapping whose 'function' is a mapping. *)
Definition harmless_tool_call (tool_call : json) : bool :=
  match tool_call with
  | JObj fields =>
      match lookup "function" fields with
      | None | Some (JObj _) => true
      | Some _ => false
      end
  | JStr s => negb (is_substring "function" s)
  | JArr items => negb (existsb (str_equals "function") items)
  | _ => false
  end.

(** A message whose 'tool_calls' the loop of lines 67 to 71 gets through:
    absent, falsy, a string, a list of harmless tool calls, or a mapping
    none of whose keys contains "function". *)
Definition collectable (fields : list (string * json)) : bool :=
  match lookup "tool_calls" fields with
  | None => true
  | Some v =>
      if truthy v then
        match v with
        | JArr entries => forallb harmless_tool_call entries
        | JObj kvs => forallb (fun kv => negb (is_substring "function" (fst kv))) kvs
        | JStr _ => true
        | _ => false
        end
      else true
  end.

(** A message the validation accepts and the analysis cannot get through:
    its 'tool_calls' is a number. *)
Definition numeric_tool_calls : list (list (string * json)) :=
  [ [("role", JStr "assistant"); ("content", JStr "hi"); ("tool_calls", JInt 5)] ].

Definition chars (s : string) : list ascii := list_ascii_of_string s.

(** A text without an asterisk. *)
Definition star_free (s : string) : bool := forallb not_star (chars s).

(** A text without an asterisk and without a line break. *)
Definition plain (s : string) : bool := forallb plain_char (chars s).

Definition returns {A : Type} (r : result A) : bool :=
  match r with
  | Ok _ => true
  | Raise _ => false
  end.

(** What [normalize_text] takes without raising. *)
Definition falsy_or_string (v : json) : bool := negb (truthy v) || is_string v.

(** What a [for] loop takes without raising. *)
Definition iterable (v : json) : bool :=
  match v with
  | JArr _ | JObj _ | JStr _ => true
  | _ => false
  end.

(** A tool response the loop of lines 154 to 160 gets through: a mapping
    whose 'content', when it has one, is falsy or a string, or a string or
    list that does not hold "content". *)
Definition showable_response (tool_response : json) : bool :=
  match tool_response with
  | JObj fields =>
      match lookup "content" fields with
      | None => true
      | Some c => falsy_or_string c
      end
  | JStr s => negb (is_substring "content" s)
  | JArr items => negb (existsb (str_equals "content") items)
  | _ => false
  end.

Definition showable_responses (v : json) : bool :=
  match v with
  | JArr entries => forallb showable_response entries
  | JObj kvs => forallb (fun kv => negb (is_substring "content" (fst kv))) kvs
  | JStr _ => true
  | _ => false
  end.

Definition field_or (key : string) (default : json) (fields : list (string * json)) : json :=
  match lookup key fields with
  | Some v => v
  | None => default
  end.

(** A message the viewer gets through: its content is falsy or a string
    unless its role is "tool", its tool calls are falsy or can be iterated
    over, and its tool responses are falsy or showable. *)
Definition viewable (fields : list (string * json)) : bool :=
  (negb (is_not_tool (field_or "role" JNull fields))
   || falsy_or_string (field_or "content" JNull fields))
  && (negb (truthy (field_or "tool_calls" JNull fields))
      || iterable (field_or "tool_calls" JNull fields))
  && (negb (truthy (field_or "tool_responses" JNull fields))
      || showable_responses (field_or "tool_responses" JNull fields)).

(** The values of the raw dumps among what is shown. *)
Definition code_values (body : list leaf) : list json :=
  flat_map (fun l => match l with st_code v => [v] | _ => [] end) body.

Definition chat_blocks {Series : Type} (items : list (page_item Series)) : list chat_block :=
  flat_map (fun i => match i with chat b => [b] | _ => [] end) items.

(** A stand-in for the pandas call of the third metric. *)
Definition sample_mean (messages : list json) : result Z := Ok 0%Z.

(** A stand-in for [st.chat_message] in the examples: it returns for a
    name that is a string and raises for any other value. *)
Definition sample_chat_message (name : json) : result unit :=
  match name with
  | JStr _ => Ok tt
  | v => Raise (AttributeError ("'" ++ type_name v ++ "' object has no attribute 'lower'"))
  end.

(** The call of [st.chat_message] for the role of a message returns. *)
Definition chat_returns (st_chat_message : json -> result unit)
    (fields : list (string * json)) : bool :=
  returns (st_chat_message (field_or "role" (JStr "user") fields)).

(** The four pandas calls of one run all return. *)
Definition pandas_returns {DataFrame Series : Type}
    (pd_DataFrame : list json -> result DataFrame)
    (role_value_counts mean_content_length_by_role : DataFrame -> result Series)
    (mean_content_length : list json -> result Z)
    (messages : list json) : Prop :=
  exists df counts lengths mean,
    pd_DataFrame messages = Ok df /\
    role_value_counts df = Ok counts /\
    mean_content_length_by_role df = Ok lengths /\
    mean_content_length messages = Ok mean.

Definition stored (msgs : list json) : session_state :=
  {| messages := msgs; conversation_history := msgs |}.

(** What [parse_conversation] accepts: a non-empty list whose elements all
    pass the membership tests. *)
Definition acceptable (data : json) : bool :=
  match data with
  | JArr msgs => list_truthy msgs && forallb has_required_fields msgs
  | _ => false
  end.
(** * Properties *)

(** ** Validation *)

Lemma has_required_fields_mapping (fields : list (string * json)) :
  has_required_fields (JObj fields) = is_message fields.
Proof.
  unfold has_required_fields, is_message; simpl.
  destruct (has_key "content" fields), (has_key "role" fields); reflexivity.
Qed.

Lemma has_required_fields_string (s : string) :
  has_required_fields (JStr s) = is_substring "content" s && is_substring "role" s.
Proof.
  unfold has_required_fields; simpl.
  destruct (is_substring "content" s), (is_substring "role" s); reflexivity.
Qed.

Lemma has_required_fields_supported (msg : json) :
  has_required_fields msg = true -> supports_membership msg = true.
Proof. destruct msg; simpl; intros H; try reflexivity; discriminate H. Qed.

Lemma check_messages_step (msg : json) (rest : list json) :
  has_required_fields msg = true ->
  check_messages (msg :: rest) = check_messages rest.
Proof.
  unfold has_required_fields; simpl; unfold py_not_in.
  destruct (py_in "content" msg) as [[|]|]; simpl; try discriminate.
  destruct (py_in "role" msg) as [[|]|]; simpl; try discriminate.
  reflexivity.
Qed.

Lemma check_messages_pass (msgs : list json) :
  forallb has_required_fields msgs = true -> check_messages msgs = Ok true.
Proof.
  induction msgs as [|msg rest IH]; intros H.
  - reflexivity.
  - simpl in H. apply andb_prop in H as [Hm Hr].
    rewrite check_messages_step by exact Hm. exact (IH Hr).
Qed.

Lemma check_messages_fail_here (msg : json) (rest : list json) :
  has_required_fields msg = false ->
  check_messages (msg :: rest) =
    if supports_membership msg then Ok false
    else Raise (TypeError ("argument of type '" ++ type_name msg ++ "' is not iterable")).
Proof.
  unfold has_required_fields; destruct msg; simpl; try reflexivity; intros H.
  - destruct (is_substring "content" s); simpl; [|reflexivity].
    destruct (is_substring "role" s); simpl; [discriminate H|reflexivity].
  - destruct (existsb (str_equals "content") items); simpl; [|reflexivity].
    destruct (existsb (str_equals "role") items); simpl; [discriminate H|reflexivity].
  - destruct (has_key "content" fields); simpl; [|reflexivity].
    destruct (has_key "role" fields); simpl; [discriminate H|reflexivity].
Qed.

Lemma check_messages_first_failure (pre : list json) (x : json) (post : list json) :
  forallb has_required_fields pre = true ->
  has_required_fields x = false ->
  check_messages (pre ++ x :: post) =
    if supports_membership x then Ok false
    else Raise (TypeError ("argument of type '" ++ type_name x ++ "' is not iterable")).
Proof.
  induction pre as [|p pre IH]; intros Hpre Hx; simpl app.
  - apply check_messages_fail_here, Hx.
  - simpl in Hpre. apply andb_prop in Hpre as [Hp Hpre].
    rewrite check_messages_step by exact Hp. apply IH; assumption.
Qed.

Lemma check_messages_complete (msgs : list json) :
  check_messages msgs = Ok true -> forallb has_required_fields msgs = true.
Proof.
  induction msgs as [|msg rest IH]; intros H.
  - reflexivity.
  - simpl forallb. destruct (has_required_fields msg) eqn:Hm.
    + rewrite check_messages_step in H by exact Hm. simpl. auto.
    + rewrite check_messages_fail_here in H by exact Hm.
      destruct (supports_membership msg); discriminate H.
Qed.

(** An element that fails the test has a first such element before it. *)
Lemma first_failure_split (msgs : list json) :
  forallb has_required_fields msgs = false ->
  exists pre x post,
    msgs = pre ++ x :: post /\
    forallb has_required_fields pre = true /\
    has_required_fields x = false.
Proof.
  induction msgs as [|msg rest IH]; intros H.
  - discriminate H.
  - simpl in H. destruct (has_required_fields msg) eqn:Hm.
    + simpl in H. destruct (IH H) as (pre & x & post & -> & Hpre & Hx).
      exists (msg :: pre), x, post. simpl. rewrite Hm, Hpre. auto.
    + exists [], msg, rest. auto.
Qed.

Lemma parse_conversation_accepts (msgs : list json) :
  list_truthy msgs = true ->
  forallb has_required_fields msgs = true ->
  parse_conversation (JArr msgs) = (msgs, []).
Proof.
  intros Hne Hall. unfold parse_conversation, parse_conversation_body.
  rewrite Hne. cbn [negb]. rewrite (check_messages_pass _ Hall). reflexivity.
Qed.

Lemma parse_conversation_first_failure (pre : list json) (x : json) (post : list json) :
  forallb has_required_fields pre = true ->
  has_required_fields x = false ->
  parse_conversation (JArr (pre ++ x :: post)) =
    ([], [st_error
            (if supports_membership x then msg_missing_field
             else "Error parsing data: argument of type '" ++ type_name x
                  ++ "' is not iterable")]).
Proof.
  intros Hpre Hx. unfold parse_conversation, parse_conversation_body.
  assert (Hne : list_truthy (pre ++ x :: post) = true) by (destruct pre; reflexivity).
  rewrite Hne. cbn [negb].
  rewrite (check_messages_first_failure _ _ _ Hpre Hx).
  destruct (supports_membership x); reflexivity.
Qed.

Lemma parse_conversation_non_list_body (data : json) :
  is_list data = false ->
  parse_conversation data = ([], [st_error msg_expected_list]).
Proof. destruct data; simpl; intros H; try reflexivity; discriminate H. Qed.

(** Whatever is returned non-empty passed the test at every element. *)
Lemma parse_conversation_returns_checked (data : json) :
  forallb has_required_fields (fst (parse_conversation data)) = true.
Proof.
  unfold parse_conversation, parse_conversation_body.
  destruct (negb (list_truthy match data with JArr items => items | _ => [] end));
    [reflexivity|].
  destruct (check_messages match data with JArr items => items | _ => [] end)
    as [[|]|] eqn:Hc; simpl; try reflexivity.
  apply check_messages_complete, Hc.
Qed.

Lemma main_upload_rejected (st : session_state) (data : json) (out : list notice) :
  parse_conversation data = ([], out) ->
  main_upload st (Some (Ok data)) = (st, out).
Proof. intros H. unfold main_upload. rewrite H. reflexivity. Qed.

Lemma main_upload_accepted (st : session_state) (data : json) (msgs : list json) :
  list_truthy msgs = true ->
  parse_conversation data = (msgs, []) ->
  main_upload st (Some (Ok data)) =
    ({| messages := msgs; conversation_history := msgs |},
     [st_success "File uploaded successfully!"]).
Proof. intros Hne H. unfold main_upload. rewrite H, Hne. reflexivity. Qed.

Lemma forallb_map {A B : Type} (f : B -> bool) (g : A -> B) (l : list A) :
  forallb f (map g l) = forallb (fun a => f (g a)) l.
Proof. induction l as [|a l IH]; simpl; [reflexivity|]. rewrite IH. reflexivity. Qed.

Lemma forallb_ext_eq {A : Type} (f g : A -> bool) (l : list A) :
  (forall a, f a = g a) -> forallb f l = forallb g l.
Proof. intros E. induction l as [|a l IH]; simpl; [reflexivity|]. rewrite E, IH. reflexivity. Qed.

Lemma list_truthy_map {A B : Type} (g : A -> B) (l : list A) :
  list_truthy (map g l) = list_truthy l.
Proof. destruct l; reflexivity. Qed.

Lemma messages_pass_check (l : list (list (string * json))) :
  forallb is_message l = true ->
  forallb has_required_fields (map JObj l) = true.
Proof.
  intros H. rewrite forallb_map.
  rewrite (forallb_ext_eq _ is_message); [exact H|].
  intros a. apply has_required_fields_mapping.
Qed.

Lemma main_upload_keeps_checked (st : session_state) (uploaded_file : option (result json)) :
  all_checked st -> all_checked (fst (main_upload st uploaded_file)).
Proof.
  intros Hst. unfold main_upload.
  destruct uploaded_file as [[data|e]|]; simpl; try exact Hst.
  pose proof (parse_conversation_returns_checked data) as Hc.
  destruct (parse_conversation data) as [msgs out]. simpl in Hc.
  destruct (list_truthy msgs); simpl; [exact Hc|exact Hst].
Qed.

(** C1 (amended): for every non-empty list of mappings that each contain
    the keys 'role' and 'content', [parse_conversation] reports no error and
    returns the input sequence itself, with the same length and the same
    element at every position.  The empty list is not accepted: it gets the
    error of a root that is not a list. *)
Theorem parse_conversation_valid_nonempty (l : list (list (string * json))) :
  list_truthy l = true ->
  forallb is_message l = true ->
  parse_conversation (JArr (map JObj l)) = (map JObj l, []) /\
  List.length (fst (parse_conversation (JArr (map JObj l)))) = List.length l /\
  (forall i, nth_error (fst (parse_conversation (JArr (map JObj l)))) i
             = option_map JObj (nth_error l i)) /\
  parse_conversation (JArr []) = ([], [st_error msg_expected_list]).
Proof.
  intros Hne Hall.
  assert (E : parse_conversation (JArr (map JObj l)) = (map JObj l, [])).
  { apply parse_conversation_accepts.
    - rewrite list_truthy_map. exact Hne.
    - apply messages_pass_check, Hall. }
  rewrite E. simpl fst. repeat split.
  - apply length_map.
  - intros i. apply nth_error_map.
Qed.

Lemma parse_conversation_valid_nonempty_witness :
  list_truthy sample_conversation = true /\
  forallb is_message sample_conversation = true /\
  parse_conversation (JArr (map JObj sample_conversation))
  = (map JObj sample_conversation, []).
Proof.
  split; [reflexivity|]. split; [reflexivity|].
  apply (parse_conversation_valid_nonempty sample_conversation); reflexivity.
Defined.

(** C1, as stated, fails at the empty list: it is a list all of whose
    elements are mappings with both keys, and validation reports the error
    of a malformed root instead of succeeding; the upload is not stored and
    no success notice is shown. *)
Lemma parse_conversation_empty_list_rejected :
  forallb is_message [] = true /\
  parse_conversation (JArr (map JObj [])) = ([], [st_error msg_expected_list]) /\
  parse_conversation (JArr (map JObj [])) <> (map JObj [], []) /\
  main_upload initial_state (Some (Ok (JArr (map JObj []))))
  = (initial_state, [st_error msg_expected_list]).
Proof. repeat split. discriminate. Qed.

(** C3: a root that is not a list (a mapping, a number, a string, a
    boolean or null) gets the error "Invalid conversation format. Expected a
    list of messages.", the empty list is returned, and the upload leaves
    the session state as it was. *)
Theorem parse_conversation_non_list (data : json) (st : session_state) :
  is_list data = false ->
  parse_conversation data
  = ([], [st_error "Invalid conversation format. Expected a list of messages."]) /\
  main_upload st (Some (Ok data))
  = (st, [st_error "Invalid conversation format. Expected a list of messages."]).
Proof.
  intros H. pose proof (parse_conversation_non_list_body data H) as E.
  split; [exact E|]. apply main_upload_rejected, E.
Qed.

Lemma parse_conversation_non_list_witness :
  is_list (JObj [("role", JStr "user"); ("content", JStr "hi")]) = false /\
  main_upload sample_state
    (Some (Ok (JObj [("role", JStr "user"); ("content", JStr "hi")])))
  = (sample_state,
     [st_error "Invalid conversation format. Expected a list of messages."]).
Proof.
  split; [reflexivity|].
  apply (parse_conversation_non_list
           (JObj [("role", JStr "user"); ("content", JStr "hi")]) sample_state).
  reflexivity.
Defined.

Lemma unsupported_fails_check (x : json) :
  supports_membership x = false -> has_required_fields x = false.
Proof.
  intros H. destruct (has_required_fields x) eqn:E; [|reflexivity].
  apply has_required_fields_supported in E. congruence.
Qed.

Lemma unsupported_element_fails_list (l : list json) :
  existsb unsupported l = true -> forallb has_required_fields l = false.
Proof.
  induction l as [|x l IH]; simpl; intros H; [discriminate H|].
  apply orb_prop in H as [H|H].
  - unfold unsupported in H. apply negb_true_iff in H.
    rewrite (unsupported_fails_check _ H). reflexivity.
  - rewrite (IH H). apply andb_false_r.
Qed.

Lemma parse_conversation_rejects (l : list json) :
  forallb has_required_fields l = false ->
  fst (parse_conversation (JArr l)) = [] /\
  exists text, snd (parse_conversation (JArr l)) = [st_error text].
Proof.
  intros H. destruct (first_failure_split l H) as (pre & x & post & -> & Hpre & Hx).
  rewrite (parse_conversation_first_failure _ _ _ Hpre Hx). simpl. eauto.
Qed.

Lemma main_upload_rejected_fst (st : session_state) (data : json) :
  fst (parse_conversation data) = [] ->
  main_upload st (Some (Ok data)) = (st, snd (parse_conversation data)).
Proof.
  intros H. destruct (parse_conversation data) as [msgs out] eqn:E.
  simpl in H; subst msgs. simpl. apply main_upload_rejected, E.
Qed.

(** C2 (amended): the accepted conversation of the session only ever holds
    elements that passed the membership test for 'content' and for 'role'
    (for a mapping: both keys are present, whatever their values).  If any
    element of an uploaded list fails that test, the batch is rejected as a
    whole: the empty list is returned, the prior state is unchanged and
    exactly one error is reported.  The error is "Invalid message format.
    Each message must have 'content' and 'role' fields." when the first
    failing element is a mapping, a string or a list; when it is a value
    that has no membership test, the error is "Error parsing data: ...". *)
Theorem upload_all_or_nothing (st : session_state) (l : list json) :
  all_checked st ->
  forallb has_required_fields l = false ->
  fst (parse_conversation (JArr l)) = [] /\
  fst (main_upload st (Some (Ok (JArr l)))) = st /\
  (exists text, snd (main_upload st (Some (Ok (JArr l)))) = [st_error text]) /\
  (forall pre x post,
      l = pre ++ x :: post ->
      forallb has_required_fields pre = true ->
      has_required_fields x = false ->
      snd (main_upload st (Some (Ok (JArr l))))
      = [st_error (if supports_membership x
                   then "Invalid message format. Each message must have 'content' and 'role' fields."
                   else "Error parsing data: " ++ not_iterable x)]) /\
  all_checked initial_state /\
  (forall uploaded_file, all_checked (fst (main_upload st uploaded_file))) /\
  (forall uploaded_file fields,
      In (JObj fields) (messages (fst (main_upload st uploaded_file))) ->
      has_key "role" fields = true /\ has_key "content" fields = true).
Proof.
  intros Hst Hl.
  destruct (parse_conversation_rejects l Hl) as [Hfst [text Hsnd]].
  pose proof (main_upload_rejected_fst st _ Hfst) as Hup.
  split; [exact Hfst|]. rewrite Hup. simpl fst. simpl snd.
  split; [reflexivity|]. split; [eauto|]. split.
  { intros pre x post -> Hpre Hx.
    rewrite (parse_conversation_first_failure _ _ _ Hpre Hx). simpl.
    destruct (supports_membership x); reflexivity. }
  split; [reflexivity|]. split.
  { intros up. apply main_upload_keeps_checked, Hst. }
  intros up fields Hin.
  pose proof (main_upload_keeps_checked st up Hst) as Hc.
  unfold all_checked in Hc. rewrite forallb_forall in Hc.
  specialize (Hc _ Hin). rewrite has_required_fields_mapping in Hc.
  unfold is_message in Hc. apply andb_prop in Hc. exact Hc.
Qed.

Lemma upload_all_or_nothing_witness :
  all_checked sample_state /\
  forallb has_required_fields
    [JObj [("role", JStr "user"); ("content", JStr "hi")];
     JObj [("role", JStr "assistant")]] = false /\
  fst (main_upload sample_state
         (Some (Ok (JArr [JObj [("role", JStr "user"); ("content", JStr "hi")];
                          JObj [("role", JStr "assistant")]])))) = sample_state.
Proof.
  split; [reflexivity|]. split; [reflexivity|].
  apply (upload_all_or_nothing sample_state
           [JObj [("role", JStr "user"); ("content", JStr "hi")];
            JObj [("role", JStr "assistant")]]); reflexivity.
Defined.

(** C2, as stated, fails when an element without a membership test comes
    before the element that lacks a key: the second element of
    [[5, {"role": "a"}]] is a mapping without 'content', and the error
    reported is the generic one, not the missing-field one. *)
Lemma missing_field_reported_as_parse_error :
  is_message [("role", JStr "a")] = false /\
  In (JObj [("role", JStr "a")]) [JInt 5; JObj [("role", JStr "a")]] /\
  parse_conversation (JArr [JInt 5; JObj [("role", JStr "a")]])
  = ([], [st_error "Error parsing data: argument of type 'int' is not iterable"]) /\
  snd (main_upload initial_state (Some (Ok (JArr [JInt 5; JObj [("role", JStr "a")]]))))
  <> [st_error "Invalid message format. Each message must have 'content' and 'role' fields."].
Proof.
  split; [reflexivity|]. split; [right; left; reflexivity|].
  split; [reflexivity|]. discriminate.
Qed.

(** C9 (amended): every non-empty list whose elements are all strings that
    contain both "content" and "role" as substrings passes validation
    without an error, although none of its elements is a mapping, and the
    upload stores it as the conversation of the session. *)
Theorem parse_conversation_admits_strings (st : session_state) (l : list string) :
  list_truthy l = true ->
  forallb mentions_both l = true ->
  parse_conversation (JArr (map JStr l)) = (map JStr l, []) /\
  main_upload st (Some (Ok (JArr (map JStr l))))
  = ({| messages := map JStr l; conversation_history := map JStr l |},
     [st_success "File uploaded successfully!"]) /\
  (forall m fields, In m (map JStr l) -> m <> JObj fields).
Proof.
  intros Hne Hall.
  assert (E : parse_conversation (JArr (map JStr l)) = (map JStr l, [])).
  { apply parse_conversation_accepts.
    - rewrite list_truthy_map. exact Hne.
    - rewrite forallb_map. rewrite (forallb_ext_eq _ mentions_both); [exact Hall|].
      intros s. apply has_required_fields_string. }
  split; [exact E|]. split.
  - apply main_upload_accepted; [|exact E]. rewrite list_truthy_map. exact Hne.
  - intros m fields Hin. apply in_map_iff in Hin as (s & <- & _). discriminate.
Qed.

Lemma parse_conversation_admits_strings_witness :
  list_truthy ["the content of a role"; "role content"] = true /\
  forallb mentions_both ["the content of a role"; "role content"] = true /\
  parse_conversation (JArr (map JStr ["the content of a role"; "role content"]))
  = (map JStr ["the content of a role"; "role content"], []).
Proof.
  split; [reflexivity|]. split; [reflexivity|].
  apply (parse_conversation_admits_strings initial_state
           ["the content of a role"; "role content"]); reflexivity.
Defined.

(** C9, as stated for any list of such strings, fails at the empty one:
    all of its elements are strings containing both words, and it is
    rejected and not stored. *)
Lemma empty_string_list_not_admitted :
  forallb mentions_both [] = true /\
  parse_conversation (JArr (map JStr []))
  = ([], [st_error "Invalid conversation format. Expected a list of messages."]) /\
  main_upload sample_state (Some (Ok (JArr (map JStr []))))
  = (sample_state,
     [st_error "Invalid conversation format. Expected a list of messages."]).
Proof. repeat split. Qed.

(** C10 (amended): when the first element of the input list that fails the
    required-field test is a value without a membership test (a number, a
    boolean or null), the test raises [TypeError] inside the [try] block,
    the handler reports "Error parsing data: " followed by the text of the
    exception and not the missing-field error, the empty list is returned
    and the session state is preserved.  A list that merely contains such an
    element is rejected with the state preserved as well, with whichever of
    the two errors its first failing element gives. *)
Theorem parse_conversation_unsupported_element
    (st : session_state) (pre : list json) (x : json) (post : list json) :
  forallb has_required_fields pre = true ->
  supports_membership x = false ->
  parse_conversation_body (JArr (pre ++ x :: post))
  = Raise (TypeError (not_iterable x)) /\
  parse_conversation (JArr (pre ++ x :: post))
  = ([], [st_error ("Error parsing data: " ++ not_iterable x)]) /\
  main_upload st (Some (Ok (JArr (pre ++ x :: post))))
  = (st, [st_error ("Error parsing data: " ++ not_iterable x)]) /\
  (forall l, existsb unsupported l = true ->
             fst (parse_conversation (JArr l)) = [] /\
             fst (main_upload st (Some (Ok (JArr l)))) = st).
Proof.
  intros Hpre Hx. pose proof (unsupported_fails_check x Hx) as Hfail.
  assert (E : parse_conversation (JArr (pre ++ x :: post))
              = ([], [st_error ("Error parsing data: " ++ not_iterable x)])).
  { rewrite (parse_conversation_first_failure _ _ _ Hpre Hfail). rewrite Hx. reflexivity. }
  split.
  { unfold parse_conversation_body.
    assert (Hne : list_truthy (pre ++ x :: post) = true) by (destruct pre; reflexivity).
    rewrite Hne. cbn [negb].
    rewrite (check_messages_first_failure _ _ _ Hpre Hfail), Hx. reflexivity. }
  split; [exact E|]. split; [apply main_upload_rejected, E|].
  intros l Hl. apply unsupported_element_fails_list in Hl.
  destruct (parse_conversation_rejects l Hl) as [Hfst _].
  split; [exact Hfst|]. rewrite (main_upload_rejected_fst st _ Hfst). reflexivity.
Qed.

Lemma parse_conversation_unsupported_element_witness :
  forallb has_required_fields [JObj [("role", JStr "user"); ("content", JStr "hi")]] = true /\
  supports_membership (JInt 5) = false /\
  parse_conversation
    (JArr ([JObj [("role", JStr "user"); ("content", JStr "hi")]] ++ JInt 5 :: [JNull]))
  = ([], [st_error "Error parsing data: argument of type 'int' is not iterable"]).
Proof.
  split; [reflexivity|]. split; [reflexivity|].
  apply (parse_conversation_unsupported_element sample_state
           [JObj [("role", JStr "user"); ("content", JStr "hi")]] (JInt 5) [JNull]);
    reflexivity.
Defined.

(** C10, as stated for every list that contains a number, fails when a
    mapping without the fields comes first: the loop returns at that
    mapping, nothing is raised, and the missing-field error is reported. *)
Lemma unsupported_element_never_reached :
  existsb unsupported [JObj []; JInt 5] = true /\
  parse_conversation_body (JArr [JObj []; JInt 5])
  = Ok ([], [st_error "Invalid message format. Each message must have 'content' and 'role' fields."]) /\
  parse_conversation (JArr [JObj []; JInt 5])
  = ([], [st_error "Invalid message format. Each message must have 'content' and 'role' fields."]).
Proof. repeat split. Qed.

(** ** Counting values *)

Section ValueCountsFacts.

Context {A : Type} (eqb : A -> A -> bool).
Hypothesis eqb_eq : forall x y, eqb x y = true <-> x = y.

Lemma value_eqb_refl (x : A) : eqb x x = true.
Proof. apply eqb_eq. reflexivity. Qed.

Lemma occurrences_zero (x : A) (l : list A) :
  ~ In x l -> occurrences eqb x l = 0.
Proof.
  induction l as [|y l IH]; simpl; intros H; [reflexivity|].
  destruct (eqb x y) eqn:E.
  - apply eqb_eq in E. subst. exfalso. apply H. now left.
  - simpl. apply IH. intros Hin. apply H. now right.
Qed.

Lemma occurrences_positive (x : A) (l : list A) :
  In x l -> 0 < occurrences eqb x l.
Proof.
  induction l as [|y l IH]; simpl; intros H; [contradiction|].
  destruct H as [->|H].
  - rewrite value_eqb_refl. lia.
  - specialize (IH H). lia.
Qed.

Lemma distinct_In (x : A) (l : list A) : In x (distinct eqb l) <-> In x l.
Proof.
  induction l as [|y l IH]; simpl; [tauto|].
  rewrite filter_In, IH. split.
  - intros [H|[H _]]; auto.
  - intros [H|H]; [now left|].
    destruct (eqb y x) eqn:E.
    + apply eqb_eq in E. now left.
    + right. split; [exact H|reflexivity].
Qed.

Lemma distinct_NoDup (l : list A) : NoDup (distinct eqb l).
Proof.
  induction l as [|y l IH]; simpl; constructor.
  - rewrite filter_In. intros [_ H]. rewrite value_eqb_refl in H. discriminate H.
  - apply NoDup_filter, IH.
Qed.

Lemma insert_by_count_perm (p : A * nat) (l : list (A * nat)) :
  Permutation (insert_by_count p l) (p :: l).
Proof.
  induction l as [|q l IH]; simpl; [reflexivity|].
  destruct (Nat.leb (snd q) (snd p)); [reflexivity|].
  rewrite IH. apply perm_swap.
Qed.

Lemma sort_by_count_perm (l : list (A * nat)) : Permutation (sort_by_count l) l.
Proof.
  induction l as [|p l IH]; simpl; [reflexivity|].
  rewrite insert_by_count_perm. now constructor.
Qed.

Lemma insert_by_count_sorted (p : A * nat) (l : list (A * nat)) :
  StronglySorted descending l -> StronglySorted descending (insert_by_count p l).
Proof.
  induction l as [|q l IH]; simpl; intros Hs.
  - repeat constructor.
  - inversion Hs as [|q' l' Hs' Hq]; subst.
    destruct (Nat.leb (snd q) (snd p)) eqn:E.
    + apply Nat.leb_le in E. constructor; [exact Hs|].
      constructor; [exact E|].
      eapply Forall_impl; [|exact Hq]. unfold descending. intros r Hr. lia.
    + apply Nat.leb_gt in E. constructor; [apply IH, Hs'|].
      eapply Permutation_Forall; [symmetry; apply insert_by_count_perm|].
      constructor; [unfold descending; lia|exact Hq].
Qed.

Lemma sort_by_count_sorted (l : list (A * nat)) :
  StronglySorted descending (sort_by_count l).
Proof.
  induction l as [|p l IH]; simpl; [constructor|].
  apply insert_by_count_sorted, IH.
Qed.

Lemma value_counts_sorted (l : list A) :
  StronglySorted descending (value_counts eqb l).
Proof. apply sort_by_count_sorted. Qed.

Lemma value_counts_In (x : A) (n : nat) (l : list A) :
  In (x, n) (value_counts eqb l) <-> In x l /\ n = occurrences eqb x l.
Proof.
  unfold value_counts. split.
  - intros H. apply (Permutation_in _ (sort_by_count_perm _)) in H.
    apply in_map_iff in H as (y & E & Hy). inversion E; subst.
    split; [|reflexivity]. apply distinct_In, Hy.
  - intros [H ->].
    apply (Permutation_in _ (Permutation_sym (sort_by_count_perm _))).
    apply in_map_iff. exists x. split; [reflexivity|]. apply distinct_In, H.
Qed.

Lemma value_counts_NoDup (l : list A) : NoDup (map fst (value_counts eqb l)).
Proof.
  unfold value_counts.
  eapply Permutation_NoDup.
  - apply Permutation_map. symmetry. apply sort_by_count_perm.
  - rewrite map_map. simpl. rewrite map_id. apply distinct_NoDup.
Qed.

End ValueCountsFacts.

(** ** Analysis *)

Lemma present_and_nonempty_mapping (field : string) (fields : list (string * json)) :
  present_and_nonempty field (JObj fields) = Ok (field_nonempty field fields).
Proof.
  unfold present_and_nonempty, field_nonempty; simpl. unfold has_key.
  destruct (lookup field fields); reflexivity.
Qed.

Lemma sum_ones_mappings (field : string) (l : list (list (string * json))) (total : Z) :
  sum_ones field (map JObj l) total = Ok (total + count_nonempty field l)%Z.
Proof.
  unfold count_nonempty. revert total.
  induction l as [|fields l IH]; intros total; simpl.
  - f_equal. lia.
  - rewrite present_and_nonempty_mapping. simpl. rewrite IH.
    destruct (field_nonempty field fields); simpl; f_equal; lia.
Qed.

Lemma count_messages_with_mappings (field : string) (l : list (list (string * json))) :
  count_messages_with field (map JObj l) = Ok (count_nonempty field l).
Proof. unfold count_messages_with. rewrite sum_ones_mappings. reflexivity. Qed.

Lemma count_nonempty_split (field : string)
    (before : list (list (string * json))) (fields : list (string * json))
    (after : list (list (string * json))) :
  count_nonempty field (before ++ fields :: after)
  = (count_nonempty field before
     + (if field_nonempty field fields then 1 else 0)
     + count_nonempty field after)%Z.
Proof.
  unfold count_nonempty. rewrite filter_app, length_app. simpl.
  destruct (field_nonempty field fields); simpl; lia.
Qed.

Lemma append_tool_names_well_formed (entries tool_calls : list json) :
  forallb well_formed_tool_call entries = true ->
  append_tool_names entries tool_calls
  = Ok (tool_calls ++ map JStr (flat_map tool_call_name entries)).
Proof.
  revert tool_calls. induction entries as [|tc entries IH]; intros acc H; simpl.
  - rewrite app_nil_r. reflexivity.
  - simpl in H. apply andb_prop in H as [Htc Hrest].
    destruct tc as [| | | | | |fields]; try discriminate Htc.
    simpl in Htc |- *. unfold has_key.
    destruct (lookup "function" fields) as [f|]; simpl.
    + destruct f as [| | | | | |ffields]; try discriminate Htc. simpl.
      destruct (lookup "name" ffields) as [name|]; simpl.
      * destruct name; try discriminate Htc.
        rewrite (IH _ Hrest), map_app, <- app_assoc. reflexivity.
      * rewrite (IH _ Hrest), <- app_assoc. reflexivity.
    + apply IH, Hrest.
Qed.

Lemma collect_tool_names_well_formed
    (l : list (list (string * json))) (tool_calls : list json) :
  forallb well_formed_tool_calls l = true ->
  collect_tool_names (map JObj l) tool_calls
  = Ok (tool_calls ++ map JStr (conversation_tool_names l)).
Proof.
  revert tool_calls. induction l as [|fields l IH]; intros acc H; simpl.
  - rewrite app_nil_r. reflexivity.
  - simpl in H. apply andb_prop in H as [Hm Hrest].
    rewrite present_and_nonempty_mapping. simpl.
    unfold conversation_tool_names. simpl. fold (conversation_tool_names l).
    unfold field_nonempty, well_formed_tool_calls, message_tool_names in *.
    destruct (lookup "tool_calls" fields) as [v|]; simpl.
    + destruct (truthy v) eqn:Hv.
      * destruct v as [| | | | |entries|]; try discriminate Hm. simpl.
        rewrite (append_tool_names_well_formed _ _ Hm). simpl.
        rewrite (IH _ Hrest), map_app, <- app_assoc. reflexivity.
      * rewrite (IH _ Hrest).
        destruct v as [| | | | |entries|]; try reflexivity.
        destruct entries; [reflexivity|discriminate Hv].
    + apply IH, Hrest.
Qed.

Lemma occurrences_names (x : string) (names : list string) :
  occurrences json_eqb (JStr x) (map JStr names) = occurrences String.eqb x names.
Proof. induction names as [|y names IH]; simpl; [reflexivity|]. rewrite IH. reflexivity. Qed.

Lemma distinct_names (names : list string) :
  distinct json_eqb (map JStr names) = map JStr (distinct String.eqb names).
Proof.
  induction names as [|y names IH]; simpl; [reflexivity|].
  rewrite IH. f_equal.
  generalize (distinct String.eqb names) as d.
  induction d as [|z d IHd]; simpl; [reflexivity|].
  destruct (String.eqb y z); simpl; rewrite IHd; reflexivity.
Qed.

Lemma insert_by_count_names (p : string * nat) (l : list (string * nat)) :
  insert_by_count (JStr (fst p), snd p) (map (fun q => (JStr (fst q), snd q)) l)
  = map (fun q => (JStr (fst q), snd q)) (insert_by_count p l).
Proof.
  induction l as [|q l IH]; simpl; [reflexivity|].
  destruct (Nat.leb (snd q) (snd p)); simpl; [reflexivity|]. rewrite IH. reflexivity.
Qed.

Lemma value_counts_names (names : list string) :
  value_counts json_eqb (map JStr names)
  = map (fun p => (JStr (fst p), snd p)) (value_counts String.eqb names).
Proof.
  unfold value_counts. rewrite distinct_names, map_map.
  generalize (distinct String.eqb names) as d.
  induction d as [|x d IH]; simpl; [reflexivity|].
  rewrite IH, occurrences_names. apply (insert_by_count_names (x, _)).
Qed.

Lemma occurrences_count_occ (name : string) (names : list string) :
  occurrences String.eqb name names = count_occ string_dec names name.
Proof.
  induction names as [|y names IH]; simpl; [reflexivity|].
  rewrite IH. destruct (string_dec y name) as [->|Hn].
  - rewrite String.eqb_refl. reflexivity.
  - destruct (String.eqb name y) eqn:Eq; [|reflexivity].
    apply String.eqb_eq in Eq. congruence.
Qed.

Lemma distribution_of_well_formed (l : list (list (string * json))) :
  forallb well_formed_tool_calls l = true ->
  distribution_of_tool_calls (map JObj l)
  = Ok (name_distribution (conversation_tool_names l)).
Proof.
  intros H. unfold distribution_of_tool_calls.
  rewrite (collect_tool_names_well_formed _ _ H). simpl.
  unfold name_distribution.
  destruct (conversation_tool_names l) as [|n names] eqn:E; simpl; [reflexivity|].
  f_equal. f_equal. apply (value_counts_names (n :: names)).
Qed.

Lemma accepted_is_nonempty (msgs : list json) :
  parse_conversation (JArr msgs) = (msgs, []) -> list_truthy msgs = true.
Proof. destruct msgs; [discriminate|reflexivity]. Qed.

Section AnalysisFacts.

Variables DataFrame Series : Type.
Variable pd_DataFrame : list json -> result DataFrame.
Variable role_value_counts : DataFrame -> result Series.
Variable mean_content_length_by_role : DataFrame -> result Series.

(** The analysis of a non-empty conversation of mappings, the pandas calls
    apart: the two counts never raise. *)
Lemma analyze_mappings (l : list (list (string * json))) :
  list_truthy l = true ->
  analyze_conversation pd_DataFrame role_value_counts
          mean_content_length_by_role (map JObj l)
  = (df <- pd_DataFrame (map JObj l) ;;
     message_counts <- role_value_counts df ;;
     avg_length <- mean_content_length_by_role df ;;
     tool_distribution <- distribution_of_tool_calls (map JObj l) ;;
     Ok {| message_counts := Some message_counts; avg_length := Some avg_length;
           tool_calls_count := Some (count_nonempty "tool_calls" l);
           tool_distribution := tool_distribution |}).
Proof.
  intros Hne. unfold analyze_conversation.
  rewrite list_truthy_map, Hne. cbn [negb].
  destruct (pd_DataFrame (map JObj l)) as [df|e]; simpl; [|reflexivity].
  destruct (role_value_counts df) as [mc|e]; simpl; [|reflexivity].
  rewrite !count_messages_with_mappings. reflexivity.
Qed.

(** C5: for every validated conversation (a list of mappings that
    [parse_conversation] accepts) the count of line 59 is the number of
    messages whose 'tool_calls' is present and not empty, and it is the
    tool-call count of the analysis whenever the analysis returns; the
    analysis fails to return only when a pandas call or the loop over the
    tool calls raises.  A message adds 0 to the count when the key is
    absent, 0 when its value is the empty sequence, and exactly 1 when the
    sequence has at least one entry. *)
Theorem tool_calls_count_counts_nonempty (l : list (list (string * json))) :
  parse_conversation (JArr (map JObj l)) = (map JObj l, []) ->
  count_messages_with "tool_calls" (map JObj l) = Ok (count_nonempty "tool_calls" l) /\
  match analyze_conversation pd_DataFrame role_value_counts
          mean_content_length_by_role (map JObj l) with
  | Ok a => tool_calls_count a = Some (count_nonempty "tool_calls" l)
  | Raise e => pandas_raised pd_DataFrame role_value_counts
                 mean_content_length_by_role (map JObj l) e \/
               distribution_of_tool_calls (map JObj l) = Raise e
  end /\
  (forall before fields after,
      count_messages_with "tool_calls" (map JObj (before ++ fields :: after))
      = Ok (count_nonempty "tool_calls" before
            + (if field_nonempty "tool_calls" fields then 1 else 0)
            + count_nonempty "tool_calls" after)%Z) /\
  (forall fields,
      (lookup "tool_calls" fields = None ->
       field_nonempty "tool_calls" fields = false) /\
      (lookup "tool_calls" fields = Some (JArr []) ->
       field_nonempty "tool_calls" fields = false) /\
      (forall x xs, lookup "tool_calls" fields = Some (JArr (x :: xs)) ->
                    field_nonempty "tool_calls" fields = true)).
Proof.
  intros Hvalid. apply accepted_is_nonempty in Hvalid.
  rewrite list_truthy_map in Hvalid.
  split; [apply count_messages_with_mappings|]. split.
  { rewrite (analyze_mappings l Hvalid). unfold pandas_raised.
    destruct (pd_DataFrame (map JObj l)) as [df|e]; simpl; [|auto].
    destruct (role_value_counts df) as [mc|e] eqn:Emc; simpl; [|eauto 6].
    destruct (mean_content_length_by_role df) as [avg|e] eqn:Eavg; simpl; [|eauto 6].
    destruct (distribution_of_tool_calls (map JObj l)) as [d|e]; simpl; auto. }
  split.
  { intros before fields after.
    rewrite count_messages_with_mappings, count_nonempty_split. reflexivity. }
  intros fields. unfold field_nonempty. repeat split.
  - intros ->. reflexivity.
  - intros ->. reflexivity.
  - intros x xs ->. reflexivity.
Qed.

(** C4 (amended): over a conversation of mappings shaped as the data model
    says, the loop flattens the entries of every message whose 'tool_calls'
    is not empty; every entry that has a 'function' key gives its
    [function.name], or "unknown" when the function has no name, and an
    entry without a 'function' key is skipped.  The distribution holds each
    distinct name once, with the number of its occurrences, in descending
    order of count; it is the absent marker when no entry has a 'function'
    key.  The three entries search, no name, search give search: 2,
    unknown: 1, in one message or spread over several. *)
Theorem tool_distribution_of_well_formed (l : list (list (string * json))) :
  forallb well_formed_tool_calls l = true ->
  collect_tool_names (map JObj l) [] = Ok (map JStr (conversation_tool_names l)) /\
  distribution_of_tool_calls (map JObj l)
  = Ok (name_distribution (conversation_tool_names l)) /\
  (list_truthy l = true ->
   match analyze_conversation pd_DataFrame role_value_counts
          mean_content_length_by_role (map JObj l) with
   | Ok a => tool_distribution a = name_distribution (conversation_tool_names l)
   | Raise e => pandas_raised pd_DataFrame role_value_counts
                 mean_content_length_by_role (map JObj l) e
   end) /\
  (conversation_tool_names l = [] <->
   distribution_of_tool_calls (map JObj l) = Ok None) /\
  NoDup (map fst (value_counts String.eqb (conversation_tool_names l))) /\
  (forall name n,
      In (name, n) (value_counts String.eqb (conversation_tool_names l)) <->
      In name (conversation_tool_names l) /\
      n = count_occ string_dec (conversation_tool_names l) name) /\
  StronglySorted descending (value_counts String.eqb (conversation_tool_names l)) /\
  distribution_of_tool_calls (map JObj example_one_message)
  = Ok (Some [(JStr "search", 2); (JStr "unknown", 1)]) /\
  distribution_of_tool_calls (map JObj example_two_messages)
  = Ok (Some [(JStr "search", 2); (JStr "unknown", 1)]) /\
  distribution_of_tool_calls (map JObj call_without_function) = Ok None.
Proof.
  intros Hwf.
  pose proof (distribution_of_well_formed l Hwf) as Hd.
  split; [apply (collect_tool_names_well_formed l [] Hwf)|].
  split; [exact Hd|]. split.
  { intros Hne. rewrite (analyze_mappings l Hne), Hd. unfold pandas_raised.
    destruct (pd_DataFrame (map JObj l)) as [df|e]; simpl; [|auto].
    destruct (role_value_counts df) as [mc|e] eqn:Emc; simpl; [|eauto 6].
    destruct (mean_content_length_by_role df) as [avg|e] eqn:Eavg; simpl; [|eauto 6].
    reflexivity. }
  split.
  { rewrite Hd. unfold name_distribution.
    destruct (conversation_tool_names l); split; intros H; try reflexivity;
      discriminate H. }
  split; [apply value_counts_NoDup, String.eqb_eq|].
  split.
  { intros name n. rewrite (value_counts_In String.eqb String.eqb_eq).
    rewrite occurrences_count_occ. reflexivity. }
  split; [apply value_counts_sorted|].
  repeat split.
Qed.

(** C6, the code at a conversation with one tool response: line 60 counts
    1, and the record the analysis returns holds the message counts, the
    average lengths, the tool-call count 0 and no distribution; the count
    of tool responses is in none of its four fields. *)
Theorem tool_responses_count_discarded :
  count_messages_with "tool_responses" one_tool_response = Ok 1%Z /\
  analyze_conversation pd_DataFrame role_value_counts
    mean_content_length_by_role one_tool_response
  = (df <- pd_DataFrame one_tool_response ;;
     message_counts <- role_value_counts df ;;
     avg_length <- mean_content_length_by_role df ;;
     Ok {| message_counts := Some message_counts; avg_length := Some avg_length;
           tool_calls_count := Some 0%Z; tool_distribution := None |}).
Proof.
  split; [reflexivity|].
  unfold analyze_conversation. simpl.
  destruct (pd_DataFrame one_tool_response) as [df|e]; simpl; [|reflexivity].
  destruct (role_value_counts df) as [mc|e]; simpl; [|reflexivity].
  destruct (mean_content_length_by_role df) as [avg|e]; reflexivity.
Qed.

End AnalysisFacts.

Lemma tool_calls_count_counts_nonempty_witness :
  parse_conversation (JArr (map JObj sample_conversation))
  = (map JObj sample_conversation, []) /\
  count_messages_with "tool_calls" (map JObj sample_conversation) = Ok 1%Z.
Proof.
  split; [reflexivity|].
  exact (proj1 (tool_calls_count_counts_nonempty (list json) nat
                  sample_frame sample_series sample_series
                  sample_conversation eq_refl)).
Defined.

Lemma tool_distribution_of_well_formed_witness :
  forallb well_formed_tool_calls example_two_messages = true /\
  collect_tool_names (map JObj example_two_messages) []
  = Ok [JStr "search"; JStr "unknown"; JStr "search"].
Proof.
  split; [reflexivity|].
  exact (proj1 (tool_distribution_of_well_formed (list json) nat
                  sample_frame sample_series sample_series
                  example_two_messages eq_refl)).
Defined.

(** C4, as stated for every entry, fails at an entry without a 'function'
    key: read as the claim words it the entry counts as "unknown", and the
    code skips it, so that the distribution is the absent marker although
    the conversation has a tool call. *)
Lemma tool_call_without_function_skipped :
  forallb well_formed_tool_calls call_without_function = true /\
  stated_tool_names call_without_function = ["unknown"] /\
  distribution_of_tool_calls (map JObj call_without_function) = Ok None /\
  distribution_of_tool_calls (map JObj call_without_function)
  <> Ok (name_distribution (stated_tool_names call_without_function)).
Proof. repeat split. discriminate. Qed.

(** ** Normalisation *)

Lemma lazy_any_tails (fuel : nat) (t : list ascii) (caps : captures) :
  List.length t < fuel ->
  lazy_repeat (matches AnyChar) fuel t caps
  = map (fun r => (r, caps)) (tails_until_newline t).
Proof.
  revert t. induction fuel as [|fuel IH]; intros t Hlen; [lia|].
  destruct t as [|x t]; simpl; [reflexivity|].
  destruct (Ascii.eqb x newline); simpl; [reflexivity|].
  rewrite app_nil_r.
  assert (Hlt : Nat.ltb (List.length t) (S (List.length t)) = true)
    by (apply Nat.ltb_lt; lia).
  rewrite Hlt. f_equal. apply IH. simpl in Hlen. lia.
Qed.

Lemma matches_closing (r : list ascii) (caps : captures) :
  matches (Cat (Chr star) (Chr star)) r caps
  = match after_stars r with
    | Some rest => [(rest, caps)]
    | None => []
    end.
Proof.
  destruct r as [|a [|b rest]]; simpl.
  - reflexivity.
  - destruct (Ascii.eqb a star); reflexivity.
  - destruct (Ascii.eqb a star); simpl; [|reflexivity].
    destruct (Ascii.eqb b star); reflexivity.
Qed.

Lemma matches_bold_pattern_open (t : list ascii) :
  matches bold_pattern (star :: star :: t) []
  = flat_map (fun r => closing r (firstn (List.length t - List.length r) t))
             (tails_until_newline t).
Proof.
  unfold bold_pattern.
  cbn [matches]. rewrite Ascii.eqb_refl. cbn [flat_map fst snd app].
  rewrite Ascii.eqb_refl. cbn [flat_map fst snd app]. rewrite !app_nil_r.
  cbn [matches]. rewrite lazy_any_tails by lia.
  rewrite map_map. cbn [fst snd].
  induction (tails_until_newline t) as [|r l IH]; [reflexivity|].
  cbn [map flat_map]. rewrite IH. f_equal.
  unfold closing. destruct r as [|a [|b rest]]; simpl; try reflexivity.
  - destruct (Ascii.eqb a star); reflexivity.
  - destruct (Ascii.eqb a star); simpl; [|reflexivity].
    destruct (Ascii.eqb b star); reflexivity.
Qed.

Lemma after_stars_spec (s rest : list ascii) :
  after_stars s = Some rest <-> s = star :: star :: rest.
Proof.
  unfold after_stars. destruct s as [|a [|b s]]; try (split; discriminate).
  destruct (Ascii.eqb a star) eqn:Ea, (Ascii.eqb b star) eqn:Eb; simpl.
  - apply Ascii.eqb_eq in Ea, Eb. subst. split; intros H; inversion H; reflexivity.
  - split; [discriminate|]. intros H. inversion H; subst.
    rewrite Ascii.eqb_refl in Eb. discriminate Eb.
  - split; [discriminate|]. intros H. inversion H; subst.
    rewrite Ascii.eqb_refl in Ea. discriminate Ea.
  - split; [discriminate|]. intros H. inversion H; subst.
    rewrite Ascii.eqb_refl in Ea. discriminate Ea.
Qed.

Lemma matches_bold_pattern_closed (s : list ascii) :
  after_stars s = None -> matches bold_pattern s [] = [].
Proof.
  unfold after_stars, bold_pattern. destruct s as [|a [|b t]]; intros H.
  - reflexivity.
  - cbn [matches]. destruct (Ascii.eqb a star); reflexivity.
  - cbn [matches]. destruct (Ascii.eqb a star); [|reflexivity].
    cbn [flat_map fst snd app]. destruct (Ascii.eqb b star); [discriminate H|reflexivity].
Qed.

Lemma firstn_one_more (pre : list ascii) (x : ascii) (t : list ascii) :
  firstn (List.length (pre ++ x :: t) - List.length t) (pre ++ x :: t) = pre ++ [x].
Proof.
  replace (pre ++ x :: t) with ((pre ++ [x]) ++ t) by (rewrite <- app_assoc; reflexivity).
  rewrite length_app, Nat.add_sub.
  rewrite firstn_app, Nat.sub_diag, firstn_all. simpl. apply app_nil_r.
Qed.

Lemma first_candidate (pre t : list ascii) :
  hd_error
    (flat_map
       (fun r => closing r (firstn (List.length (pre ++ t) - List.length r) (pre ++ t)))
       (tails_until_newline t))
  = option_map (fun p => (snd p, [(1, pre ++ fst p)])) (first_span t).
Proof.
  revert pre. induction t as [|x t IH]; intros pre; simpl; [reflexivity|].
  destruct (Ascii.eqb x newline); [reflexivity|].
  cbn [flat_map]. rewrite firstn_one_more. unfold closing at 1.
  destruct (after_stars t) as [rest|]; [reflexivity|].
  cbn [app].
  replace (pre ++ x :: t) with ((pre ++ [x]) ++ t) by (rewrite <- app_assoc; reflexivity).
  rewrite IH. destruct (first_span t) as [[inner rest]|]; simpl; [|reflexivity].
  rewrite <- app_assoc. reflexivity.
Qed.

(** The match the engine reports for the pattern at the start of [s]. *)
Lemma bold_pattern_first_match (s : list ascii) :
  hd_error (matches bold_pattern s [])
  = match after_stars s with
    | Some t => option_map (fun p => (snd p, [(1, fst p)])) (first_span t)
    | None => None
    end.
Proof.
  destruct (after_stars s) as [t|] eqn:E.
  - apply after_stars_spec in E. subst s.
    rewrite matches_bold_pattern_open. apply (first_candidate [] t).
  - rewrite (matches_bold_pattern_closed s E). reflexivity.
Qed.

Lemma first_span_sound (t inner rest : list ascii) :
  first_span t = Some (inner, rest) ->
  t = inner ++ star :: star :: rest /\ inner <> [] /\ ~ In newline inner /\
  forall inner' rest',
    t = inner' ++ star :: star :: rest' -> inner' <> [] ->
    List.length inner <= List.length inner'.
Proof.
  revert inner rest. induction t as [|x t IH]; intros inner rest H; simpl in H.
  - discriminate H.
  - destruct (Ascii.eqb x newline) eqn:Ex; [discriminate H|].
    apply Ascii.eqb_neq in Ex.
    destruct (after_stars t) as [r|] eqn:Ea.
    + inversion H; subst. apply after_stars_spec in Ea. subst t.
      repeat split.
      * discriminate.
      * intros [Hin|[]]. congruence.
      * intros inner' rest' _ Hne. destruct inner'; [contradiction|]. simpl. lia.
    + destruct (first_span t) as [[i r]|] eqn:Ef; [|discriminate H].
      inversion H; subst. destruct (IH i rest eq_refl) as (Ht & Hi & Hnl & Hmin).
      repeat split.
      * simpl. rewrite <- Ht. reflexivity.
      * discriminate.
      * intros [Hin|Hin]; [congruence|]. exact (Hnl Hin).
      * intros inner' rest' Heq Hne.
        destruct inner' as [|y inner']; [contradiction|].
        simpl in Heq. inversion Heq as [[Hy Ht']].
        destruct inner' as [|z inner'].
        -- simpl in Ht'. rewrite Ht' in Ea.
           assert (Hs : after_stars (star :: star :: rest') = Some rest')
             by (apply after_stars_spec; reflexivity).
           rewrite Hs in Ea. discriminate Ea.
        -- assert (Hle : List.length i <= List.length (z :: inner')).
           { apply (Hmin (z :: inner') rest'); [exact Ht'|discriminate]. }
           simpl in *. lia.
Qed.

Lemma first_span_complete (t : list ascii) :
  first_span t = None ->
  forall inner rest,
    t = inner ++ star :: star :: rest -> inner <> [] -> In newline inner.
Proof.
  induction t as [|x t IH]; intros H inner rest Heq Hne.
  - destruct inner; discriminate Heq.
  - destruct inner as [|y inner]; [contradiction|].
    simpl in Heq. inversion Heq as [[Hy Ht]]. subst y.
    simpl in H. destruct (Ascii.eqb x newline) eqn:Ex.
    + apply Ascii.eqb_eq in Ex. subst x. now left.
    + destruct (after_stars t) as [r|] eqn:Ea; [discriminate H|].
      destruct (first_span t) as [[i r]|] eqn:Ef; [discriminate H|].
      destruct inner as [|z inner].
      * simpl in Ht. rewrite Ht in Ea.
        assert (Hs : after_stars (star :: star :: rest) = Some rest)
          by (apply after_stars_spec; reflexivity).
        rewrite Hs in Ea. discriminate Ea.
      * right. apply (IH eq_refl (z :: inner) rest); [exact Ht|discriminate].
Qed.

Lemma bold_span_after_stars (s inner rest : list ascii) :
  bold_span s inner rest ->
  after_stars s = Some (inner ++ star :: star :: rest).
Proof. intros [-> _]. apply after_stars_spec. reflexivity. Qed.

Lemma first_span_shortest (s t inner rest : list ascii) :
  after_stars s = Some t ->
  first_span t = Some (inner, rest) ->
  shortest_bold_span s inner rest.
Proof.
  intros Hs Hf. apply after_stars_spec in Hs. subst s.
  destruct (first_span_sound _ _ _ Hf) as (Ht & Hne & Hnl & Hmin).
  split.
  - split; [rewrite Ht; reflexivity|]. split; assumption.
  - intros inner' rest' (Heq & Hne' & _). inversion Heq as [Ht'].
    apply (Hmin inner' rest'); assumption.
Qed.

Lemma no_first_span_no_bold_span (s : list ascii) :
  match after_stars s with
  | Some t => first_span t = None
  | None => True
  end ->
  forall inner rest, ~ bold_span s inner rest.
Proof.
  intros H inner rest Hspan.
  rewrite (bold_span_after_stars _ _ _ Hspan) in H.
  destruct Hspan as (_ & Hne & Hnl).
  apply Hnl. exact (first_span_complete _ H inner rest eq_refl Hne).
Qed.

Lemma re_sub_from_stripped (fuel : nat) (s : list ascii) :
  List.length s < fuel ->
  bold_stripped s (re_sub_from fuel bold_pattern 1 s).
Proof.
  revert s. induction fuel as [|fuel IH]; intros s Hlen; [lia|].
  destruct s as [|c s'].
  - simpl. constructor.
  - cbn [re_sub_from].
    pose proof (bold_pattern_first_match (c :: s')) as Hm.
    destruct (matches bold_pattern (c :: s') []) as [|m l] eqn:El.
    + apply stripped_char.
      * apply no_first_span_no_bold_span.
        destruct (after_stars (c :: s')) as [t|]; [|exact I].
        simpl in Hm. destruct (first_span t); [discriminate Hm|reflexivity].
      * apply IH. simpl in Hlen. lia.
    + cbn [hd_error] in Hm.
      destruct (after_stars (c :: s')) as [t|] eqn:Ea; [|discriminate Hm].
      destruct (first_span t) as [[inner rest]|] eqn:Ef; [|discriminate Hm].
      simpl in Hm. inversion Hm; subst m. cbn [fst snd group Nat.eqb].
      pose proof (first_span_shortest _ _ _ _ Ea Ef) as Hshort.
      destruct Hshort as [[Heq Hrest] Hmin].
      assert (Hshorter : List.length rest < List.length (c :: s')).
      { rewrite Heq. simpl. rewrite length_app. simpl. lia. }
      apply Nat.ltb_lt in Hshorter as Hltb. rewrite Hltb.
      apply (stripped_span _ inner rest).
      * split; [split; assumption|exact Hmin].
      * apply IH. lia.
Qed.

Lemma app_same_length {A : Type} (l1 l2 r1 r2 : list A) :
  List.length l1 = List.length l2 -> l1 ++ r1 = l2 ++ r2 -> l1 = l2 /\ r1 = r2.
Proof.
  revert l2. induction l1 as [|a l1 IH]; intros [|b l2] Hlen Heq;
    try discriminate Hlen.
  - auto.
  - simpl in Heq. inversion Heq; subst. simpl in Hlen.
    destruct (IH l2) as [-> ->]; auto.
Qed.

Lemma shortest_bold_span_unique (s i1 r1 i2 r2 : list ascii) :
  shortest_bold_span s i1 r1 -> shortest_bold_span s i2 r2 -> i1 = i2 /\ r1 = r2.
Proof.
  intros [H1 M1] [H2 M2].
  pose proof (M1 _ _ H2). pose proof (M2 _ _ H1).
  destruct H1 as [E1 _], H2 as [E2 _]. rewrite E1 in E2. inversion E2 as [E].
  destruct (app_same_length i1 i2 _ _ ltac:(lia) E) as [-> E'].
  inversion E'. auto.
Qed.

(** The relation determines its output. *)
Lemma bold_stripped_functional (s out1 out2 : list ascii) :
  bold_stripped s out1 -> bold_stripped s out2 -> out1 = out2.
Proof.
  intros H1. revert out2.
  induction H1 as [|s inner rest out Hs Hrest IH|c s out Hno Hrest IH];
    intros out2 H2.
  - inversion H2 as [|s' inner' rest' out' Hs' Hrest'|]; subst; [reflexivity|].
    destruct Hs' as [[E _] _]. discriminate E.
  - inversion H2 as [|s' inner' rest' out' Hs' Hrest'|c s' out' Hno' Hrest']; subst.
    + destruct Hs as [[E _] _]. discriminate E.
    + destruct (shortest_bold_span_unique _ _ _ _ _ Hs Hs') as [-> ->].
      f_equal. apply IH, Hrest'.
    + exfalso. destruct Hs as [Hs _]. exact (Hno' _ _ Hs).
  - inversion H2 as [|s' inner' rest' out' Hs' Hrest'|c' s' out' Hno' Hrest']; subst.
    + exfalso. destruct Hs' as [Hs' _]. exact (Hno _ _ Hs').
    + f_equal. apply IH, Hrest'.
Qed.

(** A text without two asterisks in a row has no span to replace. *)
Lemma bold_stripped_unchanged (s : list ascii) :
  (forall pre post, s <> pre ++ star :: star :: post) -> bold_stripped s s.
Proof.
  induction s as [|c s IH]; intros H; constructor.
  - intros inner rest [E _]. apply (H [] (inner ++ star :: star :: rest)). exact E.
  - apply IH. intros pre post E. apply (H (c :: pre) post). rewrite E. reflexivity.
Qed.

Lemma normalize_text_string (s : string) :
  normalize_text (JStr s)
  = Ok (JStr (string_of_list_ascii (re_sub bold_pattern 1 (list_ascii_of_string s)))).
Proof.
  destruct s as [|c s]; [reflexivity|].
  unfold normalize_text. reflexivity.
Qed.

(** C7 (amended): [normalize_text] returns a falsy value, null and the
    empty string among them, as it is and without an error.  On a string it
    returns the text in which, scanning from left to right, every span made
    of two asterisks, a shortest non-empty content without a line break and
    two asterisks is replaced by its content, every other character being
    kept; the result is the only text related so to the input.  A text
    without two asterisks in a row is unchanged.  "**bold** and plain"
    becomes "bold and plain" and "*not bold*" stays as it is. *)
Theorem normalize_text_strips_bold (s : string) :
  (forall text, truthy text = false -> normalize_text text = Ok text) /\
  normalize_text JNull = Ok JNull /\
  normalize_text (JStr "") = Ok (JStr "") /\
  (exists out,
      normalize_text (JStr s) = Ok (JStr out) /\
      bold_stripped (list_ascii_of_string s) (list_ascii_of_string out) /\
      forall out', bold_stripped (list_ascii_of_string s) out' ->
                   out' = list_ascii_of_string out) /\
  ((forall pre post, list_ascii_of_string s <> pre ++ star :: star :: post) ->
   normalize_text (JStr s) = Ok (JStr s)) /\
  normalize_text (JStr "**bold** and plain") = Ok (JStr "bold and plain") /\
  normalize_text (JStr "*not bold*") = Ok (JStr "*not bold*").
Proof.
  assert (Hrel : bold_stripped (list_ascii_of_string s)
                   (re_sub bold_pattern 1 (list_ascii_of_string s))).
  { apply re_sub_from_stripped. lia. }
  split.
  { intros text H. unfold normalize_text. rewrite H. reflexivity. }
  split; [reflexivity|]. split; [reflexivity|]. split.
  { eexists. split; [apply normalize_text_string|].
    rewrite list_ascii_of_string_of_list_ascii. split; [exact Hrel|].
    intros out' H'. exact (bold_stripped_functional _ _ _ H' Hrel). }
  split.
  { intros Hno. rewrite normalize_text_string. do 2 f_equal.
    rewrite (bold_stripped_functional _ _ _ Hrel (bold_stripped_unchanged _ Hno)).
    apply string_of_list_ascii_of_string. }
  split; reflexivity.
Qed.

Lemma normalize_text_strips_bold_witness :
  truthy (JStr "") = false /\
  normalize_text (JStr "") = Ok (JStr "") /\
  bold_stripped (list_ascii_of_string "a **b** c") (list_ascii_of_string "a b c").
Proof.
  split; [reflexivity|].
  destruct (normalize_text_strips_bold "a **b** c")
    as (Hfalsy & _ & _ & (out & Hout & Hrel & _) & _).
  split; [apply (Hfalsy (JStr "")); reflexivity|].
  assert (E : out = "a b c") by (vm_compute in Hout; congruence).
  rewrite <- E. exact Hrel.
Defined.

(** C7, as stated for every span, fails at a span whose content holds a
    line break: the text is two asterisks, the content, two asterisks, and
    it comes back unchanged, not replaced by its content. *)
Lemma bold_across_lines_kept :
  two_line_bold = ("**" ++ two_line_content ++ "**")%string /\
  two_line_content <> "" /\
  normalize_text (JStr two_line_bold) = Ok (JStr two_line_bold) /\
  normalize_text (JStr two_line_bold) <> Ok (JStr two_line_content).
Proof. repeat split; discriminate. Qed.

(** ** The average content length per role *)





















(** * Further properties *)

(** ** Validation and upload *)

Lemma check_messages_mappings (l : list (list (string * json))) :
  check_messages (map JObj l) = Ok (forallb is_message l).
Proof.
  induction l as [|fields l IH]; [reflexivity|].
  cbn [map forallb]. destruct (is_message fields) eqn:E.
  - rewrite check_messages_step by (rewrite has_required_fields_mapping; exact E).
    exact IH.
  - rewrite check_messages_fail_here by (rewrite has_required_fields_mapping; exact E).
    reflexivity.
Qed.

Lemma parse_conversation_mappings (l : list (list (string * json))) :
  parse_conversation (JArr (map JObj l))
  = if list_truthy l then
      if forallb is_message l then (map JObj l, [])
      else ([], [st_error msg_missing_field])
    else ([], [st_error msg_expected_list]).
Proof.
  unfold parse_conversation, parse_conversation_body.
  rewrite list_truthy_map. destruct (list_truthy l); [|reflexivity].
  cbn [negb]. rewrite check_messages_mappings.
  destruct (forallb is_message l); reflexivity.
Qed.

Lemma has_key_keys (key : string) (fields : list (string * json)) :
  has_key key fields = existsb (String.eqb key) (map fst fields).
Proof.
  unfold has_key. induction fields as [|[k v] fields IH]; [reflexivity|].
  simpl. destruct (String.eqb key k); [reflexivity|exact IH].
Qed.

Lemma is_message_keys (l l' : list (list (string * json))) :
  keys_of l = keys_of l' -> forallb is_message l = forallb is_message l'.
Proof.
  unfold keys_of. revert l'.
  induction l as [|f l IH]; intros [|f' l'] H; try discriminate H; [reflexivity|].
  simpl in H. inversion H as [[Hf Hl]]. simpl. rewrite (IH _ Hl). f_equal.
  unfold is_message. rewrite !has_key_keys, Hf. reflexivity.
Qed.

Lemma parse_conversation_acceptable (data : json) :
  acceptable data = true ->
  exists msgs,
    data = JArr msgs /\ list_truthy msgs = true /\
    forallb has_required_fields msgs = true /\
    parse_conversation data = (msgs, []).
Proof.
  destruct data as [| | | | |msgs|]; try discriminate. cbn [acceptable].
  intros H. apply andb_prop in H as [Hne Hall].
  exists msgs. repeat split; try assumption.
  apply parse_conversation_accepts; assumption.
Qed.

Lemma parse_conversation_unacceptable (data : json) :
  acceptable data = false ->
  exists text, parse_conversation data = ([], [st_error text]).
Proof.
  destruct data as [| | | | |msgs|]; try (intros _; eexists; reflexivity).
  cbn [acceptable]. intros H. destruct msgs as [|m rest]; [eexists; reflexivity|].
  cbn [list_truthy andb] in H.
  destruct (parse_conversation_rejects (m :: rest) H) as [Hfst [text Hsnd]].
  exists text. destruct (parse_conversation (JArr (m :: rest))) as [a b].
  simpl in *. subst. reflexivity.
Qed.

(** X1: the outcome of [parse_conversation] on any value.  Either the
    value is a non-empty list whose elements all pass the membership test
    for 'content' and 'role', and then that list is returned and nothing is
    reported; or the empty list is returned together with exactly one
    error. *)
Theorem parse_conversation_outcome (data : json) :
  (exists msgs,
      data = JArr msgs /\ list_truthy msgs = true /\
      forallb has_required_fields msgs = true /\
      parse_conversation data = (msgs, [])) \/
  ((forall msgs, data = JArr msgs ->
                 list_truthy msgs && forallb has_required_fields msgs = false) /\
   exists text, parse_conversation data = ([], [st_error text])).
Proof.
  destruct (acceptable data) eqn:Ha.
  - left. apply parse_conversation_acceptable, Ha.
  - right. split.
    + intros msgs ->. exact Ha.
    + apply parse_conversation_unacceptable, Ha.
Qed.

(** X2: validation looks at the keys of the mappings only.  Two lists of
    mappings with the same keys in the same places, whatever the values
    (null, numbers, empty strings), are both accepted or both rejected, and
    with the same notices. *)
Theorem parse_conversation_ignores_values (l l' : list (list (string * json))) :
  keys_of l = keys_of l' ->
  snd (parse_conversation (JArr (map JObj l)))
  = snd (parse_conversation (JArr (map JObj l'))) /\
  (parse_conversation (JArr (map JObj l)) = (map JObj l, []) <->
   parse_conversation (JArr (map JObj l')) = (map JObj l', [])).
Proof.
  intros Hk. rewrite !parse_conversation_mappings.
  rewrite (is_message_keys l l' Hk).
  assert (Hne : list_truthy l = list_truthy l').
  { unfold keys_of in Hk. destruct l, l'; try discriminate Hk; reflexivity. }
  rewrite Hne.
  destruct (list_truthy l'), (forallb is_message l'); simpl;
    split; try reflexivity; split; intros H; try reflexivity; discriminate H.
Qed.

Lemma parse_conversation_ignores_values_witness :
  keys_of [[("role", JStr "user"); ("content", JStr "hello")]]
  = keys_of [[("role", JNull); ("content", JInt 0)]] /\
  snd (parse_conversation
         (JArr (map JObj [[("role", JStr "user"); ("content", JStr "hello")]])))
  = snd (parse_conversation
           (JArr (map JObj [[("role", JNull); ("content", JInt 0)]]))).
Proof.
  split; [reflexivity|].
  exact (proj1 (parse_conversation_ignores_values
                  [[("role", JStr "user"); ("content", JStr "hello")]]
                  [[("role", JNull); ("content", JInt 0)]] eq_refl)).
Defined.

Lemma main_upload_cases (st : session_state) (uploaded_file : option (result json)) :
  (fst (main_upload st uploaded_file) = st /\
   (snd (main_upload st uploaded_file) = [] \/
    exists text, snd (main_upload st uploaded_file) = [st_error text])) \/
  (exists msgs,
      uploaded_file = Some (Ok (JArr msgs)) /\ list_truthy msgs = true /\
      forallb has_required_fields msgs = true /\
      main_upload st uploaded_file
      = ({| messages := msgs; conversation_history := msgs |},
         [st_success "File uploaded successfully!"])).
Proof.
  destruct uploaded_file as [[data|e]|].
  - destruct (acceptable data) eqn:Ha.
    + destruct (parse_conversation_acceptable data Ha) as (msgs & -> & Hne & Hall & E).
      right. exists msgs. repeat split; try assumption.
      apply main_upload_accepted; assumption.
    + destruct (parse_conversation_unacceptable data Ha) as [text E].
      left. rewrite (main_upload_rejected st data _ E). split; [reflexivity|].
      right. exists text. reflexivity.
  - left. split; [reflexivity|]. right. eexists. reflexivity.
  - left. split; [reflexivity|]. left. reflexivity.
Qed.

Lemma no_success_among (notices : list notice) :
  notices = [] \/ (exists text, notices = [st_error text]) ->
  forall text, ~ In (st_success text) notices.
Proof.
  intros [->|[t ->]] text; [intros []|]. intros [H|[]]. discriminate H.
Qed.

(** X3: one upload step either leaves the session exactly as it was, and
    then shows no success notice, or replaces both [messages] and
    [conversation_history] by the uploaded list as a whole, and then shows
    the success notice and nothing else.  So the two fields of the session,
    equal at the start, stay equal, and the session never holds a part of
    an upload. *)
Theorem main_upload_replaces_or_keeps
    (st : session_state) (uploaded_file : option (result json)) :
  messages initial_state = conversation_history initial_state /\
  (messages st = conversation_history st ->
   messages (fst (main_upload st uploaded_file))
   = conversation_history (fst (main_upload st uploaded_file))) /\
  ((fst (main_upload st uploaded_file) = st /\
    forall text, ~ In (st_success text) (snd (main_upload st uploaded_file))) \/
   (exists msgs,
       uploaded_file = Some (Ok (JArr msgs)) /\ list_truthy msgs = true /\
       main_upload st uploaded_file
       = ({| messages := msgs; conversation_history := msgs |},
          [st_success "File uploaded successfully!"]))).
Proof.
  split; [reflexivity|]. split.
  - intros Hst.
    destruct (main_upload_cases st uploaded_file) as [[E _]|(msgs & _ & _ & _ & E)];
      rewrite E; [exact Hst|reflexivity].
  - destruct (main_upload_cases st uploaded_file)
      as [[E Hn]|(msgs & Hup & Hne & _ & E)].
    + left. split; [exact E|]. apply no_success_among, Hn.
    + right. exists msgs. auto.
Qed.

Lemma main_upload_replaces_or_keeps_witness :
  messages sample_state = conversation_history sample_state /\
  messages (fst (main_upload sample_state (Some (Ok (JArr [JStr "role content"])))))
  = conversation_history
      (fst (main_upload sample_state (Some (Ok (JArr [JStr "role content"]))))).
Proof.
  split; [reflexivity|].
  apply (main_upload_replaces_or_keeps sample_state
           (Some (Ok (JArr [JStr "role content"])))).
  reflexivity.
Defined.

(** X4: the script runs again on every interaction with the same file
    still uploaded.  Running the upload step a second time on the same file
    gives the same session and the same notices as the first time, and what
    an accepted file leaves in the session does not depend on what was
    there before. *)
Theorem main_upload_rerun
    (st st' : session_state) (uploaded_file : option (result json)) :
  main_upload (fst (main_upload st uploaded_file)) uploaded_file
  = main_upload st uploaded_file /\
  (fst (main_upload st uploaded_file) <> st ->
   main_upload st' uploaded_file = main_upload st uploaded_file).
Proof.
  destruct (main_upload_cases st uploaded_file)
    as [[E _]|(msgs & Hup & Hne & Hall & E)].
  - rewrite E. split; [reflexivity|]. intros H. contradiction.
  - rewrite E. cbn [fst]. subst uploaded_file.
    assert (P : parse_conversation (JArr msgs) = (msgs, []))
      by (apply parse_conversation_accepts; assumption).
    split; [|intros _]; apply main_upload_accepted; assumption.
Qed.

Lemma main_upload_rerun_witness :
  fst (main_upload initial_state (Some (Ok (JArr (map JObj sample_conversation)))))
  <> initial_state /\
  main_upload sample_state (Some (Ok (JArr (map JObj sample_conversation))))
  = main_upload initial_state (Some (Ok (JArr (map JObj sample_conversation)))).
Proof.
  assert (H : fst (main_upload initial_state
                     (Some (Ok (JArr (map JObj sample_conversation)))))
              <> initial_state) by (vm_compute; discriminate).
  split; [exact H|].
  exact (proj2 (main_upload_rerun initial_state sample_state
                  (Some (Ok (JArr (map JObj sample_conversation))))) H).
Defined.

(** ** Analysis *)

Lemma sum_ones_bounds (field : string) (msgs : list json) (total n : Z) :
  sum_ones field msgs total = Ok n ->
  (total <= n <= total + Z.of_nat (List.length msgs))%Z.
Proof.
  revert total. induction msgs as [|msg rest IH]; intros total H; simpl in H.
  - inversion H; subst. simpl. lia.
  - destruct (present_and_nonempty field msg) as [c|e]; [|discriminate H].
    simpl in H. apply IH in H. cbn [List.length]. destruct c; lia.
Qed.

Lemma sum_ones_add (field : string) (msgs : list json) (total n d : Z) :
  sum_ones field msgs total = Ok n ->
  sum_ones field msgs (total + d) = Ok (n + d)%Z.
Proof.
  revert total. induction msgs as [|msg rest IH]; intros total H; simpl in *.
  - inversion H; subst. reflexivity.
  - destruct (present_and_nonempty field msg) as [c|e]; [|discriminate H].
    simpl in *. destruct c.
    + replace (total + d + 1)%Z with (total + 1 + d)%Z by lia. apply IH, H.
    + apply IH, H.
Qed.

Lemma sum_ones_app (field : string) (a b : list json) (total : Z) :
  sum_ones field (a ++ b) total = bind (sum_ones field a total) (sum_ones field b).
Proof.
  revert total. induction a as [|msg a IH]; intros total; simpl; [reflexivity|].
  destruct (present_and_nonempty field msg) as [c|e]; simpl; [apply IH|reflexivity].
Qed.

Section CountFacts.

Variables DataFrame Series : Type.
Variable pd_DataFrame : list json -> result DataFrame.
Variable role_value_counts : DataFrame -> result Series.
Variable mean_content_length_by_role : DataFrame -> result Series.

(** X5: whenever the count of line 59 or 60 is computed, it lies between 0
    and the number of messages; so the tool-call count that the analysis
    returns, the "Tool Calls" metric, never exceeds the number of messages,
    the "Total Messages" metric. *)
Theorem tool_calls_count_bounded (msgs : list json) :
  (forall field n,
      count_messages_with field msgs = Ok n ->
      (0 <= n <= Z.of_nat (List.length msgs))%Z) /\
  (forall a n,
      analyze_conversation pd_DataFrame role_value_counts
        mean_content_length_by_role msgs = Ok a ->
      tool_calls_count a = Some n ->
      (0 <= n <= Z.of_nat (List.length msgs))%Z).
Proof.
  assert (Hc : forall field n,
             count_messages_with field msgs = Ok n ->
             (0 <= n <= Z.of_nat (List.length msgs))%Z).
  { intros field n H. apply sum_ones_bounds in H. lia. }
  split; [exact Hc|].
  intros a n Ha Hn. unfold analyze_conversation in Ha.
  destruct (list_truthy msgs); cbn [negb] in Ha.
  - destruct (pd_DataFrame msgs) as [df|e]; [|discriminate Ha]. cbn [bind] in Ha.
    destruct (role_value_counts df) as [mc|e]; [|discriminate Ha]. cbn [bind] in Ha.
    destruct (count_messages_with "tool_calls" msgs) as [n1|e] eqn:E1;
      [|discriminate Ha].
    cbn [bind] in Ha.
    destruct (count_messages_with "tool_responses" msgs) as [n2|e];
      [|discriminate Ha].
    cbn [bind] in Ha.
    destruct (mean_content_length_by_role df) as [avg|e]; [|discriminate Ha].
    cbn [bind] in Ha.
    destruct (distribution_of_tool_calls msgs) as [d|e]; [|discriminate Ha].
    cbn [bind] in Ha. inversion Ha; subst a. cbn [tool_calls_count] in Hn.
    inversion Hn; subst n1. apply (Hc "tool_calls" n E1).
  - inversion Ha; subst a. discriminate Hn.
Qed.

End CountFacts.

Lemma tool_calls_count_bounded_witness :
  count_messages_with "tool_calls" (map JObj sample_conversation) = Ok 1%Z /\
  (0 <= 1 <= Z.of_nat (List.length (map JObj sample_conversation)))%Z.
Proof.
  split; [reflexivity|].
  apply (proj1 (tool_calls_count_bounded (list json) nat
                  sample_frame sample_series sample_series
                  (map JObj sample_conversation)) "tool_calls" 1%Z).
  reflexivity.
Defined.

Lemma sum_ones_none_counted (field : string) (msgs : list json) (total : Z) :
  sum_ones field msgs total = Ok total ->
  Forall (fun msg => present_and_nonempty field msg = Ok false) msgs.
Proof.
  revert total. induction msgs as [|msg rest IH]; intros total H; [constructor|].
  simpl in H. destruct (present_and_nonempty field msg) as [c|e] eqn:E;
    [|discriminate H].
  simpl in H. destruct c.
  - apply sum_ones_bounds in H. lia.
  - constructor; [exact E|]. apply (IH total H).
Qed.

Lemma collect_tool_names_none
    (msgs : list json) (tool_calls : list json) :
  Forall (fun msg => present_and_nonempty "tool_calls" msg = Ok false) msgs ->
  collect_tool_names msgs tool_calls = Ok tool_calls.
Proof.
  induction 1 as [|msg rest Hm _ IH]; [reflexivity|].
  simpl. rewrite Hm. simpl. exact IH.
Qed.

(** X6: when no message counts as having tool calls, no name is collected:
    a tool-call count of 0 comes with the absent marker for the
    distribution, for any list of values the count returns on. *)
Theorem no_tool_calls_no_distribution (msgs : list json) :
  count_messages_with "tool_calls" msgs = Ok 0%Z ->
  collect_tool_names msgs [] = Ok [] /\
  distribution_of_tool_calls msgs = Ok None.
Proof.
  intros H. apply sum_ones_none_counted in H.
  pose proof (collect_tool_names_none msgs [] H) as E.
  split; [exact E|]. unfold distribution_of_tool_calls. rewrite E. reflexivity.
Qed.

Lemma no_tool_calls_no_distribution_witness :
  count_messages_with "tool_calls" one_tool_response = Ok 0%Z /\
  distribution_of_tool_calls one_tool_response = Ok None.
Proof.
  split; [reflexivity|].
  apply (no_tool_calls_no_distribution one_tool_response). reflexivity.
Defined.

Lemma append_tool_names_any_acc (entries acc r : list json) :
  append_tool_names entries acc = Ok r ->
  exists names, r = acc ++ names /\
    forall acc', append_tool_names entries acc' = Ok (acc' ++ names).
Proof.
  revert acc r. induction entries as [|tc rest IH]; intros acc r H; simpl in H.
  - inversion H; subst. exists []. split; [now rewrite app_nil_r|].
    intros acc'. simpl. now rewrite app_nil_r.
  - destruct (py_in "function" tc) as [[|]|e] eqn:Ein; simpl in H;
      try discriminate H.
    + destruct (py_getitem tc "function") as [f|e] eqn:Ef; [|discriminate H].
      simpl in H.
      destruct (py_get f "name" (JStr "unknown")) as [name|e] eqn:En;
        [|discriminate H].
      simpl in H. destruct (IH _ _ H) as (names & -> & Hall).
      exists (name :: names). split; [now rewrite <- app_assoc|].
      intros acc'. simpl. rewrite Ein. simpl. rewrite Ef. simpl. rewrite En. simpl.
      rewrite Hall, <- app_assoc. reflexivity.
    + destruct (IH _ _ H) as (names & -> & Hall).
      exists names. split; [reflexivity|].
      intros acc'. simpl. rewrite Ein. simpl. apply Hall.
Qed.

Lemma collect_tool_names_any_acc (msgs acc r : list json) :
  collect_tool_names msgs acc = Ok r ->
  exists names, r = acc ++ names /\
    forall acc', collect_tool_names msgs acc' = Ok (acc' ++ names).
Proof.
  revert acc r. induction msgs as [|msg rest IH]; intros acc r H; simpl in H.
  - inversion H; subst. exists []. split; [now rewrite app_nil_r|].
    intros acc'. simpl. now rewrite app_nil_r.
  - destruct (present_and_nonempty "tool_calls" msg) as [[|]|e] eqn:Ep;
      simpl in H; try discriminate H.
    + destruct (py_getitem msg "tool_calls") as [v|e] eqn:Ev; [|discriminate H].
      simpl in H. destruct (py_iter v) as [entries|e] eqn:Ei; [|discriminate H].
      simpl in H.
      destruct (append_tool_names entries acc) as [acc1|e] eqn:Ea;
        [|discriminate H].
      simpl in H.
      destruct (append_tool_names_any_acc _ _ _ Ea) as (mine & -> & Hmine).
      destruct (IH _ _ H) as (names & -> & Hall).
      exists (mine ++ names). split; [now rewrite app_assoc|].
      intros acc'. simpl. rewrite Ep. simpl. rewrite Ev. simpl. rewrite Ei. simpl.
      rewrite Hmine. simpl. rewrite Hall, app_assoc. reflexivity.
    + destruct (IH _ _ H) as (names & -> & Hall).
      exists names. split; [reflexivity|].
      intros acc'. simpl. rewrite Ep. simpl. apply Hall.
Qed.

Lemma collect_tool_names_acc (msgs tool_calls names : list json) :
  collect_tool_names msgs [] = Ok names ->
  collect_tool_names msgs tool_calls = Ok (tool_calls ++ names).
Proof.
  intros H. destruct (collect_tool_names_any_acc _ _ _ H) as (names' & -> & Hall).
  apply Hall.
Qed.

Lemma collect_tool_names_app (a b tool_calls : list json) :
  collect_tool_names (a ++ b) tool_calls
  = bind (collect_tool_names a tool_calls) (collect_tool_names b).
Proof.
  revert tool_calls. induction a as [|msg a IH]; intros acc; simpl; [reflexivity|].
  destruct (present_and_nonempty "tool_calls" msg) as [[|]|e]; simpl;
    try reflexivity; [|apply IH].
  destruct (py_getitem msg "tool_calls") as [v|e]; simpl; [|reflexivity].
  destruct (py_iter v) as [entries|e]; simpl; [|reflexivity].
  destruct (append_tool_names entries acc) as [acc1|e]; simpl; [apply IH|reflexivity].
Qed.

(** X8: the counts and the collected names of two conversations put one
    after the other are the sums of the counts and the names of the first
    followed by those of the second. *)
Theorem analysis_of_concatenation
    (field : string) (a b : list json) (na nb : Z) (names_a names_b : list json) :
  count_messages_with field a = Ok na ->
  count_messages_with field b = Ok nb ->
  collect_tool_names a [] = Ok names_a ->
  collect_tool_names b [] = Ok names_b ->
  count_messages_with field (a ++ b) = Ok (na + nb)%Z /\
  collect_tool_names (a ++ b) [] = Ok (names_a ++ names_b).
Proof.
  intros Ha Hb Hca Hcb. split.
  - unfold count_messages_with in *. rewrite sum_ones_app, Ha. simpl.
    pose proof (sum_ones_add field b 0 nb na Hb) as E.
    rewrite Z.add_0_l in E. rewrite E. f_equal. lia.
  - rewrite collect_tool_names_app, Hca. simpl.
    apply collect_tool_names_acc, Hcb.
Qed.

Lemma analysis_of_concatenation_witness :
  count_messages_with "tool_calls"
    (map JObj example_one_message ++ map JObj example_two_messages) = Ok 3%Z /\
  collect_tool_names
    (map JObj example_one_message ++ map JObj example_two_messages) []
  = Ok [JStr "search"; JStr "unknown"; JStr "search";
        JStr "search"; JStr "unknown"; JStr "search"].
Proof.
  apply (analysis_of_concatenation "tool_calls"
           (map JObj example_one_message) (map JObj example_two_messages)
           1 2 [JStr "search"; JStr "unknown"; JStr "search"]
           [JStr "search"; JStr "unknown"; JStr "search"]); reflexivity.
Defined.

Lemma single_char_no_function (c : ascii) :
  is_substring "function" (String c EmptyString) = false.
Proof.
  cbn [is_substring String.prefix].
  destruct (Ascii.ascii_dec "f" c); reflexivity.
Qed.

Lemma append_tool_names_harmless (tc : json) (rest acc : list json) :
  harmless_tool_call tc = true ->
  exists names,
    append_tool_names (tc :: rest) acc = append_tool_names rest (acc ++ names).
Proof.
  intros H. destruct tc as [| | | |s|items|fields]; try discriminate H; simpl in *.
  - apply negb_true_iff in H. rewrite H. simpl. exists []. now rewrite app_nil_r.
  - apply negb_true_iff in H. rewrite H. simpl. exists []. now rewrite app_nil_r.
  - unfold has_key. destruct (lookup "function" fields) as [f|]; simpl.
    + destruct f as [| | | | | |ffields]; try discriminate H. simpl.
      destruct (lookup "name" ffields) as [name|]; simpl; eauto.
    + exists []. now rewrite app_nil_r.
Qed.

Lemma append_tool_names_harmful (tc : json) (rest acc : list json) :
  harmless_tool_call tc = false ->
  exists e, append_tool_names (tc :: rest) acc = Raise e.
Proof.
  intros H. destruct tc as [| | | |s|items|fields]; simpl in *; eauto.
  - apply negb_false_iff in H. rewrite H. simpl. eauto.
  - apply negb_false_iff in H. rewrite H. simpl. eauto.
  - unfold has_key. destruct (lookup "function" fields) as [f|]; simpl;
      [|discriminate H].
    destruct f; try discriminate H; simpl; eauto.
Qed.

Lemma append_tool_names_returns (entries acc : list json) :
  (exists r, append_tool_names entries acc = Ok r) <->
  forallb harmless_tool_call entries = true.
Proof.
  revert acc. induction entries as [|tc rest IH]; intros acc.
  - simpl. split; eauto.
  - cbn [forallb]. destruct (harmless_tool_call tc) eqn:Hh.
    + destruct (append_tool_names_harmless tc rest acc Hh) as [names E].
      rewrite E. simpl. apply IH.
    + destruct (append_tool_names_harmful tc rest acc Hh) as [e E].
      rewrite E. simpl. split; [intros [r H]; discriminate H|discriminate].
Qed.

Lemma iterated_tool_calls (v : json) (acc : list json) :
  truthy v = true ->
  (exists r, bind (py_iter v) (fun entries => append_tool_names entries acc) = Ok r) <->
  match v with
  | JArr entries => forallb harmless_tool_call entries
  | JObj kvs => forallb (fun kv => negb (is_substring "function" (fst kv))) kvs
  | JStr _ => true
  | _ => false
  end = true.
Proof.
  intros Hv. destruct v as [| | | |s|entries|kvs]; simpl;
    try (split; [intros [r H]; discriminate H|discriminate]).
  - assert (H : forallb harmless_tool_call
                  (map (fun c => JStr (String c EmptyString)) (list_ascii_of_string s))
                = true).
    { rewrite forallb_map. apply forallb_forall. intros c _.
      unfold harmless_tool_call. rewrite single_char_no_function. reflexivity. }
    apply (append_tool_names_returns _ acc) in H. tauto.
  - apply append_tool_names_returns.
  - rewrite append_tool_names_returns, forallb_map. reflexivity.
Qed.

Lemma collect_tool_names_returns (l : list (list (string * json))) (acc : list json) :
  (exists r, collect_tool_names (map JObj l) acc = Ok r) <->
  forallb collectable l = true.
Proof.
  revert acc. induction l as [|fields l IH]; intros acc.
  - simpl. split; eauto.
  - cbn [map forallb collect_tool_names].
    rewrite present_and_nonempty_mapping. cbn [bind].
    unfold collectable at 1, field_nonempty.
    destruct (lookup "tool_calls" fields) as [v|] eqn:El; [|simpl; apply IH].
    destruct (truthy v) eqn:Hv; [|simpl; apply IH].
    cbn [py_getitem]. rewrite El. cbn [bind].
    pose proof (iterated_tool_calls v acc Hv) as Hit.
    destruct (py_iter v) as [entries|e]; cbn [bind] in *.
    + destruct (append_tool_names entries acc) as [acc1|e]; cbn [bind] in *.
      * assert (Hs : match v with
                     | JArr entries => forallb harmless_tool_call entries
                     | JObj kvs =>
                         forallb (fun kv => negb (is_substring "function" (fst kv))) kvs
                     | JStr _ => true
                     | _ => false
                     end = true) by (apply Hit; eauto).
        rewrite Hs. simpl. apply IH.
      * split; [intros [r H]; discriminate H|].
        intros H. apply andb_prop in H as [H _].
        apply Hit in H. destruct H as [r H]. discriminate H.
    + split; [intros [r H]; discriminate H|].
      intros H. apply andb_prop in H as [H _].
      apply Hit in H. destruct H as [r H]. discriminate H.
Qed.

Lemma distribution_returns (l : list (list (string * json))) :
  (exists d, distribution_of_tool_calls (map JObj l) = Ok d) <->
  forallb collectable l = true.
Proof.
  rewrite <- (collect_tool_names_returns l []). unfold distribution_of_tool_calls.
  destruct (collect_tool_names (map JObj l) []) as [names|e]; simpl.
  - split; eauto.
  - split; intros [r H]; discriminate H.
Qed.

Section AnalysisFailures.

Variables DataFrame Series : Type.
Variable pd_DataFrame : list json -> result DataFrame.
Variable role_value_counts : DataFrame -> result Series.
Variable mean_content_length_by_role : DataFrame -> result Series.

(** X7: which conversations of mappings the loop over the tool calls
    (lines 66 to 72) gets through.  The loop collects the names without an
    exception exactly when every 'tool_calls' is absent, falsy, a string, a
    list of entries that either have no 'function' or are mappings whose
    'function' is a mapping, or a mapping without a key containing
    "function".  On any other conversation, a message with [tool_calls: 5]
    for one, the analysis raises whatever pandas does, although validation
    accepts such a message. *)
Theorem collect_tool_names_returns_iff_collectable (l : list (list (string * json))) :
  ((exists names, collect_tool_names (map JObj l) [] = Ok names) <->
   forallb collectable l = true) /\
  (forallb collectable l = false ->
   exists e, analyze_conversation pd_DataFrame role_value_counts
               mean_content_length_by_role (map JObj l) = Raise e).
Proof.
  pose proof (collect_tool_names_returns l []) as Hiff.
  split; [exact Hiff|].
  intros Hbad.
  assert (Hne : list_truthy l = true) by (destruct l; [discriminate Hbad|reflexivity]).
  rewrite (analyze_mappings _ _ pd_DataFrame role_value_counts
             mean_content_length_by_role l Hne).
  destruct (pd_DataFrame (map JObj l)) as [df|e]; simpl; [|eauto].
  destruct (role_value_counts df) as [mc|e]; simpl; [|eauto].
  destruct (mean_content_length_by_role df) as [avg|e]; simpl; [|eauto].
  unfold distribution_of_tool_calls.
  destruct (collect_tool_names (map JObj l) []) as [names|e]; simpl; [|eauto].
  exfalso. assert (H : forallb collectable l = true) by (apply Hiff; eauto).
  congruence.
Qed.

End AnalysisFailures.

Lemma collect_tool_names_returns_iff_collectable_witness :
  forallb collectable numeric_tool_calls = false /\
  parse_conversation (JArr (map JObj numeric_tool_calls))
  = (map JObj numeric_tool_calls, []) /\
  exists e, analyze_conversation sample_frame sample_series sample_series
              (map JObj numeric_tool_calls) = Raise e.
Proof.
  split; [reflexivity|]. split; [reflexivity|].
  apply (collect_tool_names_returns_iff_collectable (list json) nat
           sample_frame sample_series sample_series numeric_tool_calls).
  reflexivity.
Defined.

(** ** Normalisation *)

Lemma not_star_star : not_star star = false.
Proof. reflexivity. Qed.

Lemma bold_stripped_deletes_stars (s out : list ascii) :
  bold_stripped s out ->
  filter not_star out = filter not_star s /\
  exists k, List.length s = List.length out + 4 * k.
Proof.
  induction 1 as [|s inner rest out [[E _] _] _ [IHf [k IHl]]|c s out _ _ [IHf [k IHl]]].
  - split; [reflexivity|]. exists 0. reflexivity.
  - subst s. split.
    + cbn [filter]. rewrite not_star_star.
      rewrite !filter_app. cbn [filter]. rewrite not_star_star, IHf. reflexivity.
    + exists (S k). cbn [List.length]. rewrite !length_app. cbn [List.length].
      lia.
  - split.
    + cbn [filter]. rewrite IHf. reflexivity.
    + exists k. cbn [List.length]. lia.
Qed.

Lemma bold_stripped_nonempty (s out : list ascii) :
  bold_stripped s out -> s <> [] -> out <> [].
Proof.
  intros H. destruct H as [|s inner rest out [[_ [Hne _]] _] _|c s out _ _]; intros Hs.
  - contradiction.
  - destruct inner; [contradiction|discriminate].
  - discriminate.
Qed.

Lemma re_sub_stripped (s : string) :
  bold_stripped (chars s) (re_sub bold_pattern 1 (chars s)).
Proof. apply re_sub_from_stripped. unfold re_sub. lia. Qed.

(** X9: on a string, [normalize_text] only deletes asterisks.  The
    characters of the result that are not asterisks are those of the input,
    in the same order; the result is never longer than the input, and the
    number of characters removed is a multiple of four. *)
Theorem normalize_text_deletes_only_stars (s : string) :
  exists out,
    normalize_text (JStr s) = Ok (JStr out) /\
    filter not_star (chars out) = filter not_star (chars s) /\
    List.length (chars out) <= List.length (chars s) /\
    exists k, List.length (chars s) = List.length (chars out) + 4 * k.
Proof.
  exists (string_of_list_ascii (re_sub bold_pattern 1 (chars s))).
  split; [apply normalize_text_string|].
  assert (E : chars (string_of_list_ascii (re_sub bold_pattern 1 (chars s)))
              = re_sub bold_pattern 1 (chars s))
    by apply list_ascii_of_string_of_list_ascii.
  rewrite E.
  destruct (bold_stripped_deletes_stars _ _ (re_sub_stripped s)) as [Hf [k Hl]].
  split; [exact Hf|]. split; [lia|]. exists k. exact Hl.
Qed.

Lemma normalize_string_nonempty (s : string) :
  s <> "" -> string_of_list_ascii (re_sub bold_pattern 1 (chars s)) <> "".
Proof.
  intros Hs.
  pose proof (bold_stripped_nonempty _ _ (re_sub_stripped s)) as Hne.
  destruct (re_sub bold_pattern 1 (chars s)) as [|c r]; [|discriminate].
  exfalso. apply Hne; [|reflexivity]. unfold chars. destruct s; [contradiction|discriminate].
Qed.

(** X10: [normalize_text] keeps a value as true or false as it was: a
    falsy value comes back as it is, and a string that is not empty never
    becomes empty, so that what is written or shown after normalisation is
    never an empty text. *)
Theorem normalize_text_keeps_truth (text out : json) :
  normalize_text text = Ok out ->
  truthy out = truthy text /\ (truthy text = false -> out = text).
Proof.
  unfold normalize_text. destruct (truthy text) eqn:Ht; cbn [negb].
  - destruct text as [| | | |s| |]; try discriminate. intros H. inversion H.
    fold (chars s). split; [|discriminate].
    assert (Hs : s <> "") by (intros ->; discriminate Ht).
    pose proof (normalize_string_nonempty s Hs) as Hne.
    destruct (string_of_list_ascii (re_sub bold_pattern 1 (chars s)));
      [contradiction|reflexivity].
  - intros H. inversion H; subst. split; [exact Ht|reflexivity].
Qed.

Lemma normalize_text_keeps_truth_witness :
  normalize_text (JStr "***x***") = Ok (JStr "*x*") /\
  truthy (JStr "*x*") = truthy (JStr "***x***").
Proof.
  split; [reflexivity|].
  apply (normalize_text_keeps_truth (JStr "***x***") (JStr "*x*")). reflexivity.
Defined.

Lemma chars_app (a b : string) : chars (a ++ b) = chars a ++ chars b.
Proof. unfold chars. induction a as [|c a IH]; simpl; [reflexivity|]. now rewrite IH. Qed.

Lemma string_of_chars (s : string) : string_of_list_ascii (chars s) = s.
Proof. apply string_of_list_ascii_of_string. Qed.

Lemma no_span_at_other (c : ascii) (s inner rest : list ascii) :
  not_star c = true -> ~ bold_span (c :: s) inner rest.
Proof.
  intros Hc [E _]. inversion E; subst. rewrite not_star_star in Hc. discriminate Hc.
Qed.

Lemma bold_stripped_prefix (pre s out : list ascii) :
  forallb not_star pre = true ->
  bold_stripped s out -> bold_stripped (pre ++ s) (pre ++ out).
Proof.
  induction pre as [|c pre IH]; intros Hpre H; [exact H|].
  simpl in Hpre. apply andb_prop in Hpre as [Hc Hpre]. simpl.
  apply stripped_char; [|apply IH; assumption].
  intros inner rest. apply no_span_at_other, Hc.
Qed.

Lemma star_free_unchanged (s : list ascii) :
  forallb not_star s = true -> bold_stripped s s.
Proof.
  intros H. rewrite <- (app_nil_r s) at 1. rewrite <- (app_nil_r s) at 2.
  apply bold_stripped_prefix; [exact H|constructor].
Qed.

Lemma star_free_prefix_shortest (c inner post rest : list ascii) :
  forallb not_star c = true ->
  c ++ star :: star :: post = inner ++ star :: star :: rest ->
  List.length c <= List.length inner.
Proof.
  revert inner. induction c as [|x c IH]; intros inner Hc E; [simpl; lia|].
  simpl in Hc. apply andb_prop in Hc as [Hx Hc].
  destruct inner as [|y inner].
  - simpl in E. inversion E; subst. rewrite not_star_star in Hx. discriminate Hx.
  - simpl in E. inversion E; subst. simpl. apply le_n_S. apply IH; assumption.
Qed.

Lemma plain_char_split (c : list ascii) :
  forallb plain_char c = true ->
  forallb not_star c = true /\ ~ In newline c.
Proof.
  induction c as [|x c IH]; intros H; [split; [reflexivity|intros []]|].
  simpl in H. apply andb_prop in H as [Hx Hc]. destruct (IH Hc) as [Hs Hn].
  unfold plain_char in Hx. apply andb_prop in Hx as [Hx1 Hx2].
  split.
  - simpl. unfold not_star at 1. rewrite Hx1. exact Hs.
  - intros [->|Hin]; [|exact (Hn Hin)].
    rewrite Ascii.eqb_refl in Hx2. discriminate Hx2.
Qed.

(** X11: stripping undoes bold markup.  A text made of a part without
    asterisks, then two asterisks, a non-empty content without asterisks or
    line breaks, two asterisks, and a part without asterisks normalises to
    the three parts put together. *)
Theorem normalize_text_unwraps_bold (before content after : string) :
  star_free before = true ->
  plain content = true ->
  content <> "" ->
  star_free after = true ->
  normalize_text (JStr (before ++ "**" ++ content ++ "**" ++ after))
  = Ok (JStr (before ++ content ++ after)).
Proof.
  intros Hb Hc Hne Ha. rewrite normalize_text_string. do 2 f_equal.
  fold (chars (before ++ "**" ++ content ++ "**" ++ after)).
  rewrite <- (string_of_chars (before ++ content ++ after)). f_equal.
  apply (bold_stripped_functional _ _ _ (re_sub_stripped _)).
  rewrite !chars_app. change (chars "**") with [star; star].
  destruct (plain_char_split _ Hc) as [Hcs Hcn].
  apply bold_stripped_prefix; [exact Hb|].
  cbn [app]. apply (stripped_span _ (chars content) (chars after)).
  - split.
    + split; [reflexivity|]. split; [|exact Hcn].
      unfold chars. destruct content; [contradiction|discriminate].
    + intros inner' rest' [E _]. inversion E as [E'].
      apply (star_free_prefix_shortest _ _ _ _ Hcs E').
  - apply star_free_unchanged, Ha.
Qed.

Lemma normalize_text_unwraps_bold_witness :
  star_free "Note: " = true /\ plain "very important" = true /\
  "very important" <> "" /\ star_free "!" = true /\
  normalize_text (JStr "Note: **very important**!")
  = Ok (JStr "Note: very important!").
Proof.
  split; [reflexivity|]. split; [reflexivity|]. split; [discriminate|].
  split; [reflexivity|].
  apply (normalize_text_unwraps_bold "Note: " "very important" "!");
    [reflexivity|reflexivity|discriminate|reflexivity].
Defined.

(** ** The viewer *)

Lemma returns_bind {A B : Type} (m : result A) (k : A -> result B) :
  returns (bind m k) = match m with Ok a => returns (k a) | Raise _ => false end.
Proof. destruct m; reflexivity. Qed.

Lemma returns_iff {A : Type} (r : result A) :
  (exists a, r = Ok a) <-> returns r = true.
Proof.
  destruct r; simpl; split; eauto; try discriminate. intros [a H]. discriminate H.
Qed.

Lemma normalize_text_returns (v : json) :
  returns (normalize_text v) = falsy_or_string v.
Proof.
  unfold normalize_text, falsy_or_string.
  destruct (truthy v) eqn:Hv; [|reflexivity].
  destruct v; reflexivity.
Qed.

Lemma py_get_mapping (fields : list (string * json)) (key : string) (default : json) :
  py_get (JObj fields) key default = Ok (field_or key default fields).
Proof. unfold py_get, field_or. destruct (lookup key fields); reflexivity. Qed.

Lemma py_getitem_truthy (fields : list (string * json)) (key : string) :
  truthy (field_or key JNull fields) = true ->
  py_getitem (JObj fields) key = Ok (field_or key JNull fields).
Proof.
  unfold py_getitem, field_or. destruct (lookup key fields); [reflexivity|discriminate].
Qed.

Lemma single_char_no_content (c : ascii) :
  is_substring "content" (String c EmptyString) = false.
Proof.
  cbn [is_substring String.prefix].
  destruct (Ascii.ascii_dec "c" c); reflexivity.
Qed.

Lemma view_tool_responses_step (tr : json) (rest : list json) :
  returns (view_tool_responses (tr :: rest))
  = showable_response tr && returns (view_tool_responses rest).
Proof.
  cbn [view_tool_responses].
  destruct tr as [| | | |s|items|fields]; try reflexivity;
    cbn [py_in bind showable_response].
  - destruct (is_substring "content" s); cbn [py_getitem bind returns negb andb];
      [reflexivity|].
    destruct (view_tool_responses rest); reflexivity.
  - destruct (existsb (str_equals "content") items);
      cbn [py_getitem bind returns negb andb]; [reflexivity|].
    destruct (view_tool_responses rest); reflexivity.
  - unfold has_key.
    destruct (lookup "content" fields) as [c|] eqn:El; cbn [py_getitem bind].
    + rewrite El. cbn [bind]. rewrite <- normalize_text_returns.
      destruct (normalize_text c) as [n|e]; cbn [bind returns andb]; [|reflexivity].
      destruct (view_tool_responses rest); reflexivity.
    + destruct (view_tool_responses rest); reflexivity.
Qed.

Lemma view_tool_responses_returns (entries : list json) :
  returns (view_tool_responses entries) = forallb showable_response entries.
Proof.
  induction entries as [|tr rest IH]; [reflexivity|].
  rewrite view_tool_responses_step, IH. reflexivity.
Qed.

Lemma iterated_responses_return (v : json) :
  returns (bind (py_iter v) view_tool_responses) = showable_responses v.
Proof.
  destruct v as [| | | |s|entries|kvs]; try reflexivity; cbn [py_iter bind].
  - rewrite view_tool_responses_returns, forallb_map. cbn [showable_responses].
    apply forallb_forall. intros c _. unfold showable_response.
    rewrite single_char_no_content. reflexivity.
  - apply view_tool_responses_returns.
  - rewrite view_tool_responses_returns, forallb_map. reflexivity.
Qed.

Lemma view_name_mapping (fields : list (string * json)) :
  exists caption, view_name (JObj fields) = Ok caption.
Proof.
  unfold view_name. rewrite py_get_mapping. cbn [bind].
  destruct (truthy (field_or "name" JNull fields)) eqn:Hn; [|eauto].
  rewrite (py_getitem_truthy _ _ Hn). cbn [bind]. eauto.
Qed.

Lemma view_content_mapping (fields : list (string * json)) :
  view_content (JObj fields)
  = if is_not_tool (field_or "role" JNull fields)
       && truthy (field_or "content" JNull fields)
    then normalized <- normalize_text (field_or "content" JNull fields) ;;
         Ok [shown (st_write normalized)]
    else Ok [].
Proof.
  unfold view_content. rewrite py_get_mapping. cbn [bind].
  destruct (is_not_tool (field_or "role" JNull fields)); [|reflexivity].
  rewrite py_get_mapping. cbn [bind andb].
  destruct (truthy (field_or "content" JNull fields)) eqn:Hc; [|reflexivity].
  rewrite (py_getitem_truthy _ _ Hc). reflexivity.
Qed.

Lemma view_tool_calls_mapping (fields : list (string * json)) :
  view_tool_calls (JObj fields)
  = if truthy (field_or "tool_calls" JNull fields)
    then entries <- py_iter (field_or "tool_calls" JNull fields) ;;
         Ok [st_expander "Tool Calls" (map st_code entries)]
    else Ok [].
Proof.
  unfold view_tool_calls. rewrite py_get_mapping. cbn [bind].
  destruct (truthy (field_or "tool_calls" JNull fields)) eqn:Hc; [|reflexivity].
  rewrite (py_getitem_truthy _ _ Hc). reflexivity.
Qed.

Lemma view_responses_mapping (fields : list (string * json)) :
  view_responses (JObj fields)
  = if truthy (field_or "tool_responses" JNull fields)
    then entries <- py_iter (field_or "tool_responses" JNull fields) ;;
         body <- view_tool_responses entries ;;
         Ok [st_expander "Tool Responses" body]
    else Ok [].
Proof.
  unfold view_responses. rewrite py_get_mapping. cbn [bind].
  destruct (truthy (field_or "tool_responses" JNull fields)) eqn:Hc; [|reflexivity].
  rewrite (py_getitem_truthy _ _ Hc). reflexivity.
Qed.

Lemma view_content_returns (fields : list (string * json)) :
  returns (view_content (JObj fields))
  = negb (is_not_tool (field_or "role" JNull fields))
    || falsy_or_string (field_or "content" JNull fields).
Proof.
  rewrite view_content_mapping. unfold falsy_or_string.
  destruct (is_not_tool (field_or "role" JNull fields)); [|reflexivity].
  cbn [andb negb orb].
  destruct (truthy (field_or "content" JNull fields)) eqn:Hc; [|reflexivity].
  rewrite returns_bind.
  pose proof (normalize_text_returns (field_or "content" JNull fields)) as Hn.
  unfold falsy_or_string in Hn. rewrite Hc in Hn. cbn [negb orb] in *.
  destruct (normalize_text (field_or "content" JNull fields)); exact Hn.
Qed.

Lemma view_tool_calls_returns (fields : list (string * json)) :
  returns (view_tool_calls (JObj fields))
  = negb (truthy (field_or "tool_calls" JNull fields))
    || iterable (field_or "tool_calls" JNull fields).
Proof.
  rewrite view_tool_calls_mapping.
  destruct (truthy (field_or "tool_calls" JNull fields)); [|reflexivity].
  destruct (field_or "tool_calls" JNull fields); reflexivity.
Qed.

Lemma view_responses_returns (fields : list (string * json)) :
  returns (view_responses (JObj fields))
  = negb (truthy (field_or "tool_responses" JNull fields))
    || showable_responses (field_or "tool_responses" JNull fields).
Proof.
  rewrite view_responses_mapping.
  destruct (truthy (field_or "tool_responses" JNull fields)); [|reflexivity].
  cbn [negb orb]. rewrite <- iterated_responses_return.
  destruct (py_iter (field_or "tool_responses" JNull fields)) as [entries|e];
    [|reflexivity].
  cbn [bind]. destruct (view_tool_responses entries); reflexivity.
Qed.

Section ViewerFacts.

Variable st_chat_message : json -> result unit.

Lemma view_message_returns (fields : list (string * json)) :
  returns (view_message st_chat_message (JObj fields))
  = chat_returns st_chat_message fields && viewable fields.
Proof.
  unfold view_message, viewable, chat_returns. rewrite py_get_mapping. cbn [bind].
  destruct (st_chat_message (field_or "role" (JStr "user") fields));
    [|reflexivity].
  cbn [bind returns andb].
  destruct (view_name_mapping fields) as [caption ->]. cbn [bind].
  rewrite <- view_content_returns, <- view_tool_calls_returns, <- view_responses_returns.
  destruct (view_content (JObj fields)); [|reflexivity]. cbn [bind returns andb].
  destruct (view_tool_calls (JObj fields)); [|reflexivity]. cbn [bind returns andb].
  destruct (view_responses (JObj fields)); reflexivity.
Qed.

Lemma view_message_name (fields : list (string * json)) (block : chat_block) :
  view_message st_chat_message (JObj fields) = Ok block ->
  chat_name block = field_or "role" (JStr "user") fields.
Proof.
  unfold view_message. rewrite py_get_mapping. cbn [bind].
  destruct (st_chat_message (field_or "role" (JStr "user") fields));
    [|discriminate].
  cbn [bind].
  destruct (view_name (JObj fields)); [|discriminate]. cbn [bind].
  destruct (view_content (JObj fields)); [|discriminate]. cbn [bind].
  destruct (view_tool_calls (JObj fields)); [|discriminate]. cbn [bind].
  destruct (view_responses (JObj fields)); [|discriminate]. cbn [bind].
  intros H. inversion H. reflexivity.
Qed.

Lemma view_message_not_mapping (msg : json) :
  is_mapping msg = false ->
  view_message st_chat_message msg
  = Raise (AttributeError ("'" ++ type_name msg ++ "' object has no attribute 'get'")).
Proof. destruct msg; try reflexivity. discriminate. Qed.

Lemma view_conversation_returns (l : list (list (string * json))) :
  returns (view_conversation st_chat_message (map JObj l))
  = forallb (chat_returns st_chat_message) l && forallb viewable l.
Proof.
  induction l as [|fields l IH]; [reflexivity|].
  cbn [map view_conversation forallb].
  pose proof (view_message_returns fields) as Hm.
  destruct (view_message st_chat_message (JObj fields)); cbn [bind returns] in *.
  - symmetry in Hm. apply andb_prop in Hm as [-> ->]. cbn [andb].
    rewrite <- IH.
    destruct (view_conversation st_chat_message (map JObj l)); reflexivity.
  - destruct (chat_returns st_chat_message fields); cbn [andb] in *;
      [|reflexivity].
    rewrite <- Hm. cbn [andb]. symmetry. apply andb_false_r.
Qed.

Lemma view_conversation_names
    (l : list (list (string * json))) (blocks : list chat_block) :
  view_conversation st_chat_message (map JObj l) = Ok blocks ->
  map chat_name blocks = map (field_or "role" (JStr "user")) l.
Proof.
  revert blocks. induction l as [|fields l IH]; intros blocks H.
  - inversion H. reflexivity.
  - cbn [map view_conversation] in H.
    destruct (view_message st_chat_message (JObj fields)) as [b|e] eqn:Eb;
      [|discriminate H].
    cbn [bind] in H.
    destruct (view_conversation st_chat_message (map JObj l)) as [bs|e];
      [|discriminate H].
    inversion H; subst. cbn [map].
    rewrite (view_message_name _ _ Eb), (IH bs eq_refl). reflexivity.
Qed.

Lemma view_conversation_not_mapping (msgs : list json) :
  forallb is_mapping msgs = false ->
  exists e, view_conversation st_chat_message msgs = Raise e.
Proof.
  induction msgs as [|msg rest IH]; intros H; [discriminate H|].
  cbn [forallb] in H. cbn [view_conversation].
  destruct (is_mapping msg) eqn:Hm.
  - destruct (view_message st_chat_message msg) as [b|e]; [|eexists; reflexivity].
    cbn [bind]. destruct (IH H) as [e ->]. eexists. reflexivity.
  - rewrite (view_message_not_mapping _ Hm). eexists. reflexivity.
Qed.

(** X13: which conversations of mappings the viewer gets through, and what
    it shows for them.  The viewer returns exactly when, for every message,
    the call of [st.chat_message] for its role (or for "user" when it has
    none) returns, its content is falsy or a string (unless its role is
    "tool"), its tool calls are falsy or can be iterated over, and its tool
    responses are falsy or hold only mappings whose 'content' is absent,
    falsy or a string (or strings and lists without "content").  It then
    shows one chat message per message, in order, named by the role of the
    message, "user" when the message has no role. *)
Theorem view_conversation_returns_iff_viewable (l : list (list (string * json))) :
  ((exists blocks, view_conversation st_chat_message (map JObj l) = Ok blocks) <->
   forallb (chat_returns st_chat_message) l = true /\ forallb viewable l = true) /\
  (forall blocks,
      view_conversation st_chat_message (map JObj l) = Ok blocks ->
      List.length blocks = List.length l /\
      map chat_name blocks = map (field_or "role" (JStr "user")) l).
Proof.
  split.
  - rewrite returns_iff. rewrite view_conversation_returns.
    apply andb_true_iff.
  - intros blocks H. pose proof (view_conversation_names l blocks H) as Hn.
    split; [|exact Hn].
    rewrite <- (length_map chat_name), Hn, length_map. reflexivity.
Qed.

End ViewerFacts.

Lemma view_conversation_returns_iff_viewable_witness :
  forallb (chat_returns sample_chat_message) sample_conversation = true /\
  forallb viewable sample_conversation = true /\
  exists blocks,
    view_conversation sample_chat_message (map JObj sample_conversation) = Ok blocks /\
    map chat_name blocks = [JStr "user"; JStr "assistant"; JStr "tool"].
Proof.
  split; [reflexivity|]. split; [reflexivity|].
  destruct (view_conversation_returns_iff_viewable sample_chat_message
              sample_conversation) as [Hiff Hshape].
  destruct (proj2 Hiff (conj eq_refl eq_refl)) as [blocks Hb].
  exists blocks. split; [exact Hb|]. exact (proj2 (Hshape blocks Hb)).
Defined.

Lemma view_tool_responses_codes (entries : list json) (body : list leaf) :
  view_tool_responses entries = Ok body -> code_values body = entries.
Proof.
  revert body. induction entries as [|tr rest IH]; intros body H.
  - inversion H. reflexivity.
  - cbn [view_tool_responses] in H.
    destruct (py_in "content" tr) as [has|e]; [|discriminate H]. cbn [bind] in H.
    assert (Ht : forall text : result (list leaf),
               (forall t, text = Ok t -> code_values t = []) ->
               bind text (fun text =>
                 more <- view_tool_responses rest ;;
                 Ok (text ++ st_code tr :: more)) = Ok body ->
               code_values body = tr :: rest).
    { intros text Hcodes Hb. destruct text as [t|e]; [|discriminate Hb].
      cbn [bind] in Hb.
      destruct (view_tool_responses rest) as [more|e]; [|discriminate Hb].
      inversion Hb; subst. unfold code_values. rewrite flat_map_app.
      fold (code_values t). rewrite (Hcodes t eq_refl). cbn [app flat_map].
      fold (code_values more). rewrite (IH more eq_refl). reflexivity. }
    refine (Ht _ _ H).
    intros t Et. destruct has; [|inversion Et; reflexivity].
    destruct (py_getitem tr "content") as [c|e]; [|discriminate Et].
    cbn [bind] in Et. destruct (normalize_text c) as [n|e]; [|discriminate Et].
    cbn [bind] in Et. inversion Et. unfold display_tool_content.
    destruct (truthy n); reflexivity.
Qed.

(** X15: the expander of the tool responses dumps every tool response
    once, as it is and in order, whatever text is shown before it: the raw
    dumps of the body are the entries. *)
Theorem view_tool_responses_dumps_all (entries : list json) (body : list leaf) :
  view_tool_responses entries = Ok body ->
  code_values body = entries /\
  (forall t, In (st_text t) body ->
             truthy t = true /\
             exists fields c,
               In (JObj fields) entries /\ lookup "content" fields = Some c /\
               normalize_text c = Ok t).
Proof.
  intros H. split; [apply view_tool_responses_codes, H|].
  revert body H. induction entries as [|tr rest IH]; intros body H t Hin.
  - inversion H; subst. contradiction.
  - cbn [view_tool_responses] in H.
    destruct (py_in "content" tr) as [has|e] eqn:Ein; [|discriminate H].
    cbn [bind] in H.
    destruct (if has
              then content <- py_getitem tr "content" ;;
                   normalized <- normalize_text content ;;
                   Ok (display_tool_content normalized)
              else Ok []) as [text|e] eqn:Et; [|discriminate H].
    cbn [bind] in H.
    destruct (view_tool_responses rest) as [more|e] eqn:Em; [|discriminate H].
    inversion H; subst body. apply in_app_or in Hin as [Hin|[Hin|Hin]].
    + destruct has; [|inversion Et; subst; contradiction].
      destruct (py_getitem tr "content") as [c|e] eqn:Ec; [|discriminate Et].
      cbn [bind] in Et. destruct (normalize_text c) as [n|e] eqn:En; [|discriminate Et].
      cbn [bind] in Et. inversion Et; subst text. unfold display_tool_content in Hin.
      destruct (truthy n) eqn:Hn; [|contradiction].
      destruct Hin as [Hin|[]]. inversion Hin; subst t.
      split; [exact Hn|].
      destruct tr as [| | | | | |fields]; try discriminate Ec.
      cbn [py_getitem] in Ec.
      destruct (lookup "content" fields) as [c'|] eqn:El; [|discriminate Ec].
      inversion Ec; subst c'. exists fields, c. split; [now left|]. auto.
    + discriminate Hin.
    + destruct (IH more eq_refl t Hin) as [Ht (fields & c & Hf & Hl & Hn)].
      split; [exact Ht|]. exists fields, c. split; [now right|]. auto.
Qed.

Lemma view_tool_responses_dumps_all_witness :
  view_tool_responses
    [JObj [("content", JStr "**done**"); ("id", JInt 1)]; JObj [("id", JInt 2)]]
  = Ok [st_text (JStr "done");
        st_code (JObj [("content", JStr "**done**"); ("id", JInt 1)]);
        st_code (JObj [("id", JInt 2)])] /\
  code_values
    [st_text (JStr "done");
     st_code (JObj [("content", JStr "**done**"); ("id", JInt 1)]);
     st_code (JObj [("id", JInt 2)])]
  = [JObj [("content", JStr "**done**"); ("id", JInt 1)]; JObj [("id", JInt 2)]].
Proof.
  split; [reflexivity|].
  apply (view_tool_responses_dumps_all
           [JObj [("content", JStr "**done**"); ("id", JInt 1)]; JObj [("id", JInt 2)]]).
  reflexivity.
Defined.

(** X14: what the viewer writes as the content of a message.  A text is
    written only for a message whose role is not "tool" and whose content
    is a non-empty string, and the text written is that content with its
    bold spans stripped, itself not empty. *)
Theorem view_message_writes_normalized_content
    (st_chat_message : json -> result unit)
    (fields : list (string * json)) (block : chat_block) (t : json) :
  view_message st_chat_message (JObj fields) = Ok block ->
  In (shown (st_write t)) (chat_body block) ->
  is_not_tool (field_or "role" JNull fields) = true /\
  exists s out,
    lookup "content" fields = Some (JStr s) /\ s <> "" /\
    t = JStr out /\ out <> "" /\
    bold_stripped (chars s) (chars out).
Proof.
  unfold view_message. rewrite py_get_mapping. cbn [bind].
  destruct (st_chat_message (field_or "role" (JStr "user") fields));
    [|discriminate].
  cbn [bind].
  destruct (view_name (JObj fields)) as [caption|e] eqn:Ecap; [|discriminate].
  cbn [bind]. rewrite view_content_mapping, view_tool_calls_mapping,
    view_responses_mapping.
  destruct (if is_not_tool (field_or "role" JNull fields)
               && truthy (field_or "content" JNull fields)
            then normalized <- normalize_text (field_or "content" JNull fields) ;;
                 Ok [shown (st_write normalized)]
            else Ok []) as [written|e] eqn:Ew; [|discriminate].
  cbn [bind].
  destruct (if truthy (field_or "tool_calls" JNull fields)
            then entries <- py_iter (field_or "tool_calls" JNull fields) ;;
                 Ok [st_expander "Tool Calls" (map st_code entries)]
            else Ok []) as [call_part|e] eqn:Ec; [|discriminate].
  cbn [bind].
  destruct (if truthy (field_or "tool_responses" JNull fields)
            then entries <- py_iter (field_or "tool_responses" JNull fields) ;;
                 body <- view_tool_responses entries ;;
                 Ok [st_expander "Tool Responses" body]
            else Ok []) as [response_part|e] eqn:Er; [|discriminate].
  cbn [bind]. intros H Hin. inversion H; subst block. cbn [chat_body] in Hin.
  assert (Hw : In (shown (st_write t)) written).
  { apply in_app_or in Hin as [Hin|Hin].
    - exfalso. unfold view_name in Ecap. rewrite py_get_mapping in Ecap.
      cbn [bind] in Ecap.
      destruct (truthy (field_or "name" JNull fields)).
      + destruct (py_getitem (JObj fields) "name"); [|discriminate Ecap].
        inversion Ecap; subst. destruct Hin as [Hin|[]]. discriminate Hin.
      + inversion Ecap; subst. contradiction.
    - apply in_app_or in Hin as [Hin|Hin]; [exact Hin|]. exfalso.
      apply in_app_or in Hin as [Hin|Hin].
      + destruct (truthy (field_or "tool_calls" JNull fields)).
        * destruct (py_iter (field_or "tool_calls" JNull fields));
            [|discriminate Ec].
          inversion Ec; subst. destruct Hin as [Hin|[]]. discriminate Hin.
        * inversion Ec; subst. contradiction.
      + destruct (truthy (field_or "tool_responses" JNull fields)).
        * destruct (py_iter (field_or "tool_responses" JNull fields)) as [entries|e];
            [|discriminate Er].
          cbn [bind] in Er.
          destruct (view_tool_responses entries); [|discriminate Er].
          inversion Er; subst. destruct Hin as [Hin|[]]. discriminate Hin.
        * inversion Er; subst. contradiction. }
  clear Hin H Ec Er Ecap.
  destruct (is_not_tool (field_or "role" JNull fields)) eqn:Hrole;
    [|inversion Ew; subst; contradiction].
  cbn [andb] in Ew.
  destruct (truthy (field_or "content" JNull fields)) eqn:Htruthy;
    [|inversion Ew; subst; contradiction].
  destruct (normalize_text (field_or "content" JNull fields)) as [n|e] eqn:En;
    [|discriminate Ew].
  cbn [bind] in Ew. inversion Ew; subst written.
  destruct Hw as [Hw|[]]. inversion Hw; subst n.
  split; [reflexivity|].
  unfold field_or in *.
  destruct (lookup "content" fields) as [c|]; [|discriminate Htruthy].
  destruct c as [| | | |s| |]; try (unfold normalize_text in En; rewrite Htruthy in En;
                                    discriminate En).
  rewrite normalize_text_string in En. inversion En as [Et].
  exists s, (string_of_list_ascii (re_sub bold_pattern 1 (list_ascii_of_string s))).
  assert (Hs : s <> "") by (intros ->; discriminate Htruthy).
  split; [reflexivity|]. split; [exact Hs|].
  split; [reflexivity|]. split.
  - apply (normalize_string_nonempty s Hs).
  - unfold chars at 2. rewrite list_ascii_of_string_of_list_ascii.
    apply re_sub_stripped.
Qed.

Lemma view_message_writes_normalized_content_witness :
  view_message sample_chat_message
    (JObj [("role", JStr "assistant"); ("content", JStr "**hi** there")])
  = Ok {| chat_name := JStr "assistant";
          chat_body := [shown (st_write (JStr "hi there"))] |} /\
  is_not_tool (field_or "role" JNull
                 [("role", JStr "assistant"); ("content", JStr "**hi** there")]) = true.
Proof.
  split; [reflexivity|].
  apply (view_message_writes_normalized_content sample_chat_message
           [("role", JStr "assistant"); ("content", JStr "**hi** there")]
           {| chat_name := JStr "assistant";
              chat_body := [shown (st_write (JStr "hi there"))] |}
           (JStr "hi there")); [reflexivity|left; reflexivity].
Defined.

(** ** The page *)

Section MainFacts.

Variables DataFrame Series : Type.
Variable pd_DataFrame : list json -> result DataFrame.
Variable role_value_counts : DataFrame -> result Series.
Variable mean_content_length_by_role : DataFrame -> result Series.
Variable mean_content_length : list json -> result Z.
Variable st_chat_message : json -> result unit.

Lemma render_page_view_raises (msgs : list json) (e : exn) :
  view_conversation st_chat_message msgs = Raise e ->
  exists e', render_page pd_DataFrame role_value_counts mean_content_length_by_role
               mean_content_length st_chat_message msgs = Raise e'.
Proof.
  intros Hv. unfold render_page.
  destruct msgs as [|m rest]; [discriminate Hv|]. cbn [list_truthy].
  destruct (analyze_conversation _ _ _ (m :: rest)) as [a|e1]; [|eexists; reflexivity].
  cbn [bind]. destruct (mean_content_length (m :: rest)); [|eexists; reflexivity].
  cbn [bind]. rewrite Hv. eexists. reflexivity.
Qed.

(** X12: validation does not make a conversation viewable.  An accepted
    list that holds an element that is not a mapping, a string containing
    "content" and "role" for one, is stored with the success notice, and
    the page of the same run raises ([msg.get] does not exist), whatever
    pandas and streamlit return; so does every later run without a new
    file. *)
Theorem accepted_non_mapping_crashes_page (st : session_state) (msgs : list json) :
  parse_conversation (JArr msgs) = (msgs, []) ->
  forallb is_mapping msgs = false ->
  (exists e,
      main pd_DataFrame role_value_counts mean_content_length_by_role
        mean_content_length st_chat_message st (Some (Ok (JArr msgs)))
      = (stored msgs, [st_success "File uploaded successfully!"], Raise e)) /\
  (exists e,
      main pd_DataFrame role_value_counts mean_content_length_by_role
        mean_content_length st_chat_message (stored msgs) None
      = (stored msgs, [], Raise e)).
Proof.
  intros Hacc Hnm.
  destruct (view_conversation_not_mapping st_chat_message msgs Hnm) as [e Hv].
  destruct (render_page_view_raises msgs e Hv) as [e' Hr].
  pose proof (accepted_is_nonempty msgs Hacc) as Hne.
  split; exists e'; unfold main.
  - rewrite (main_upload_accepted st _ msgs Hne Hacc). cbn [messages stored].
    rewrite Hr. reflexivity.
  - cbn [main_upload messages stored]. rewrite Hr. reflexivity.
Qed.

Lemma render_page_mappings (l : list (list (string * json))) :
  list_truthy l = true ->
  render_page pd_DataFrame role_value_counts mean_content_length_by_role
    mean_content_length st_chat_message (map JObj l)
  = (df <- pd_DataFrame (map JObj l) ;;
     counts <- role_value_counts df ;;
     lengths <- mean_content_length_by_role df ;;
     distribution <- distribution_of_tool_calls (map JObj l) ;;
     mean <- mean_content_length (map JObj l) ;;
     blocks <- view_conversation st_chat_message (map JObj l) ;;
     Ok ([st_header "Conversation Analysis";
          st_metric "Total Messages" (Some (Z.of_nat (List.length l)));
          st_metric "Tool Calls" (Some (count_nonempty "tool_calls" l));
          st_metric "Average Message Length" (Some mean);
          st_subheader "Message Distribution";
          pie_chart counts;
          st_subheader "Tool Usage Distribution"]
         ++ match distribution with
            | Some ((_ :: _) as d) => [bar_chart d]
            | _ => []
            end
         ++ [st_header "Conversation Viewer"]
         ++ map chat blocks)).
Proof.
  intros Hne. unfold render_page. rewrite list_truthy_map, Hne.
  rewrite (analyze_mappings _ _ pd_DataFrame role_value_counts
             mean_content_length_by_role l Hne).
  destruct (pd_DataFrame (map JObj l)) as [df|e]; [|reflexivity]. cbn [bind].
  destruct (role_value_counts df) as [counts|e]; [|reflexivity]. cbn [bind].
  destruct (mean_content_length_by_role df) as [lengths|e]; [|reflexivity]. cbn [bind].
  destruct (distribution_of_tool_calls (map JObj l)) as [d|e]; [|reflexivity].
  cbn [bind].
  destruct (mean_content_length (map JObj l)) as [mean|e]; [|reflexivity]. cbn [bind].
  destruct (view_conversation st_chat_message (map JObj l)) as [blocks|e];
    [|reflexivity].
  cbn [bind]. cbn [message_counts tool_calls_count tool_distribution].
  rewrite length_map. reflexivity.
Qed.

(** X17: what the page of a non-empty conversation of mappings needs in
    order to be shown without an exception.  The page is rendered only when
    the four pandas calls return, the loop over the tool calls gets through
    every message, [st.chat_message] returns for the role of every message
    and the viewer gets through every message; when a message stops the
    loop or the viewer, the page raises, whatever the libraries do. *)
Theorem render_page_returns_only_if (l : list (list (string * json))) :
  list_truthy l = true ->
  ((exists items,
       render_page pd_DataFrame role_value_counts mean_content_length_by_role
         mean_content_length st_chat_message (map JObj l) = Ok items) ->
   pandas_returns pd_DataFrame role_value_counts mean_content_length_by_role
     mean_content_length (map JObj l) /\
   forallb collectable l = true /\
   forallb (chat_returns st_chat_message) l = true /\
   forallb viewable l = true) /\
  (forallb collectable l && forallb viewable l = false ->
   exists e,
     render_page pd_DataFrame role_value_counts mean_content_length_by_role
       mean_content_length st_chat_message (map JObj l) = Raise e).
Proof.
  intros Hne.
  assert (Hnec : (exists items,
                     render_page pd_DataFrame role_value_counts
                       mean_content_length_by_role mean_content_length
                       st_chat_message (map JObj l) = Ok items) ->
                 pandas_returns pd_DataFrame role_value_counts
                   mean_content_length_by_role mean_content_length (map JObj l) /\
                 forallb collectable l = true /\
                 forallb (chat_returns st_chat_message) l = true /\
                 forallb viewable l = true).
  { rewrite (render_page_mappings l Hne). unfold pandas_returns.
    pose proof (view_conversation_returns st_chat_message l) as Hview.
    pose proof (distribution_returns l) as Hdist.
    destruct (pd_DataFrame (map JObj l)) as [df|e] eqn:Edf; cbn [bind];
      [|intros [i H]; discriminate H].
    destruct (role_value_counts df) as [counts|e] eqn:Ec; cbn [bind];
      [|intros [i H]; discriminate H].
    destruct (mean_content_length_by_role df) as [lengths|e] eqn:El; cbn [bind];
      [|intros [i H]; discriminate H].
    destruct (distribution_of_tool_calls (map JObj l)) as [d|e]; cbn [bind];
      [|intros [i H]; discriminate H].
    destruct (mean_content_length (map JObj l)) as [mean|e] eqn:Em; cbn [bind];
      [|intros [i H]; discriminate H].
    destruct (view_conversation st_chat_message (map JObj l)) as [blocks|e];
      cbn [bind returns] in *; [|intros [i H]; discriminate H].
    intros _. symmetry in Hview. apply andb_prop in Hview as [Hc Hv].
    split; [exists df, counts, lengths, mean; repeat split; assumption|].
    split; [apply Hdist; eauto|]. split; assumption. }
  split; [exact Hnec|].
  intros Hbad.
  destruct (render_page pd_DataFrame role_value_counts mean_content_length_by_role
              mean_content_length st_chat_message (map JObj l)) as [items|e];
    [|eexists; reflexivity].
  exfalso. destruct Hnec as (_ & Hc & _ & Hv); [eauto|].
  rewrite Hc, Hv in Hbad. discriminate Hbad.
Qed.

End MainFacts.

Lemma chat_blocks_chats {Series : Type} (blocks : list chat_block) :
  chat_blocks (map (@chat Series) blocks) = blocks.
Proof.
  unfold chat_blocks. induction blocks as [|b blocks IH]; [reflexivity|].
  cbn [map flat_map app]. rewrite IH. reflexivity.
Qed.

Section PageFacts.

Variables DataFrame Series : Type.
Variable pd_DataFrame : list json -> result DataFrame.
Variable role_value_counts : DataFrame -> result Series.
Variable mean_content_length_by_role : DataFrame -> result Series.
Variable mean_content_length : list json -> result Z.
Variable st_chat_message : json -> result unit.

(** X16: the first run of a session.  Whatever is uploaded into the
    initial session, either the file is accepted and stored, or the run
    ends without an exception, with the session still empty, nothing on the
    page, and no notice or a single error notice. *)
Theorem first_run_outcome (uploaded_file : option (result json)) :
  (exists msgs,
      uploaded_file = Some (Ok (JArr msgs)) /\ list_truthy msgs = true /\
      fst (main pd_DataFrame role_value_counts mean_content_length_by_role
             mean_content_length st_chat_message initial_state uploaded_file)
      = (stored msgs, [st_success "File uploaded successfully!"])) \/
  (exists notices,
      main pd_DataFrame role_value_counts mean_content_length_by_role
        mean_content_length st_chat_message initial_state uploaded_file
      = (initial_state, notices, Ok []) /\
      (notices = [] \/ exists text, notices = [st_error text])).
Proof.
  unfold main.
  destruct (main_upload_cases initial_state uploaded_file)
    as [[E Hn]|(msgs & Hup & Hne & _ & E)].
  - right. destruct (main_upload initial_state uploaded_file) as [st' notices].
    cbn [fst snd] in *. subst st'. exists notices. split; [reflexivity|exact Hn].
  - left. exists msgs. rewrite E. auto.
Qed.

(** X18: what the page shows for an accepted conversation of mappings
    whose tool calls are shaped as the data model says (names are strings),
    when the run ends without an exception.  The upload is stored with the
    success notice; "Total Messages" is the number of uploaded messages and
    "Tool Calls" the number of those with non-empty tool calls; the viewer
    has one chat message per uploaded message, in order, named by its role
    or "user"; and the bar chart, when there is one, shows the distribution
    of the names of the tool calls, which is not empty.  With a tool-call
    count of 0 there is no bar chart. *)
Theorem page_of_accepted_upload
    (st st' : session_state) (l : list (list (string * json)))
    (notices : list notice) (items : list (page_item Series)) :
  parse_conversation (JArr (map JObj l)) = (map JObj l, []) ->
  forallb well_formed_tool_calls l = true ->
  main pd_DataFrame role_value_counts mean_content_length_by_role
    mean_content_length st_chat_message st (Some (Ok (JArr (map JObj l))))
  = (st', notices, Ok items) ->
  st' = stored (map JObj l) /\
  notices = [st_success "File uploaded successfully!"] /\
  In (st_metric "Total Messages" (Some (Z.of_nat (List.length l)))) items /\
  In (st_metric "Tool Calls" (Some (count_nonempty "tool_calls" l))) items /\
  map chat_name (chat_blocks items) = map (field_or "role" (JStr "user")) l /\
  (forall d, In (bar_chart d) items ->
             name_distribution (conversation_tool_names l) = Some d /\ d <> []) /\
  (count_nonempty "tool_calls" l = 0%Z -> forall d, ~ In (bar_chart d) items).
Proof.
  intros Hacc Hwf Hmain. pose proof (accepted_is_nonempty _ Hacc) as Hne.
  unfold main in Hmain.
  rewrite (main_upload_accepted st _ _ Hne Hacc) in Hmain.
  cbn [messages] in Hmain. rewrite list_truthy_map in Hne.
  rewrite (render_page_mappings _ _ pd_DataFrame role_value_counts
             mean_content_length_by_role mean_content_length
             st_chat_message l Hne) in Hmain.
  pose proof (distribution_of_well_formed l Hwf) as Ed.
  destruct (pd_DataFrame (map JObj l)) as [df|e]; [|discriminate Hmain].
  cbn [bind] in Hmain.
  destruct (role_value_counts df) as [counts|e]; [|discriminate Hmain].
  cbn [bind] in Hmain.
  destruct (mean_content_length_by_role df) as [lengths|e]; [|discriminate Hmain].
  cbn [bind] in Hmain. rewrite Ed in Hmain. cbn [bind] in Hmain.
  destruct (mean_content_length (map JObj l)) as [mean|e]; [|discriminate Hmain].
  cbn [bind] in Hmain.
  destruct (view_conversation st_chat_message (map JObj l)) as [blocks|e] eqn:Ev;
    [|discriminate Hmain].
  cbn [bind] in Hmain. inversion Hmain; subst st' notices items. clear Hmain.
  set (dist := name_distribution (conversation_tool_names l)) in *.
  split; [reflexivity|]. split; [reflexivity|].
  split; [right; left; reflexivity|].
  split; [right; right; left; reflexivity|].
  assert (Hbar : forall d,
             In (bar_chart d)
                ([st_header "Conversation Analysis";
                  st_metric "Total Messages" (Some (Z.of_nat (List.length l)));
                  st_metric "Tool Calls" (Some (count_nonempty "tool_calls" l));
                  st_metric "Average Message Length" (Some mean);
                  st_subheader "Message Distribution";
                  pie_chart counts;
                  st_subheader "Tool Usage Distribution"]
                 ++ match dist with
                    | Some ((_ :: _) as d0) => [bar_chart d0]
                    | _ => []
                    end
                 ++ [st_header "Conversation Viewer"]
                 ++ map (@chat Series) blocks) ->
             dist = Some d /\ d <> []).
  { intros d Hin. apply in_app_or in Hin as [Hin|Hin].
    - exfalso. repeat (destruct Hin as [Hin|Hin]; [discriminate Hin|]). exact Hin.
    - apply in_app_or in Hin as [Hin|Hin].
      + destruct dist as [[|p d0]|]; try contradiction.
        destruct Hin as [Hin|[]]. injection Hin as <-. split; [reflexivity|discriminate].
      + exfalso. destruct Hin as [Hin|Hin]; [discriminate Hin|].
        apply in_map_iff in Hin as (b & Hb & _). discriminate Hb. }
  split.
  { unfold chat_blocks. cbn [flat_map app]. rewrite !flat_map_app.
    cbn [flat_map app].
    assert (Hd : flat_map (fun i : page_item Series =>
                             match i with chat b => [b] | _ => [] end)
                   match dist with
                   | Some ((_ :: _) as d0) => [bar_chart d0]
                   | _ => []
                   end = []) by (destruct dist as [[|p d0]|]; reflexivity).
    rewrite Hd. cbn [app]. fold (@chat_blocks Series (map (@chat Series) blocks)).
    rewrite chat_blocks_chats.
    apply (view_conversation_names st_chat_message l blocks Ev). }
  split; [exact Hbar|].
  intros Hzero d Hin. destruct (Hbar d Hin) as [Hd _].
  pose proof (count_messages_with_mappings "tool_calls" l) as Hc.
  rewrite Hzero in Hc. apply sum_ones_none_counted in Hc.
  pose proof (collect_tool_names_none _ [] Hc) as Hnone.
  rewrite (collect_tool_names_well_formed l [] Hwf) in Hnone.
  cbn [app] in Hnone. inversion Hnone as [Hnames].
  unfold dist in Hd. destruct (conversation_tool_names l); [|discriminate Hnames].
  discriminate Hd.
Qed.

End PageFacts.

Lemma accepted_non_mapping_crashes_page_witness :
  parse_conversation (JArr [JStr "role content"]) = ([JStr "role content"], []) /\
  forallb is_mapping [JStr "role content"] = false /\
  exists e,
    main sample_frame sample_series sample_series sample_mean sample_chat_message
      initial_state (Some (Ok (JArr [JStr "role content"])))
    = (stored [JStr "role content"],
       [st_success "File uploaded successfully!"], Raise e).
Proof.
  split; [reflexivity|]. split; [reflexivity|].
  exact (proj1 (accepted_non_mapping_crashes_page (list json) nat
                  sample_frame sample_series sample_series sample_mean
                  sample_chat_message
                  initial_state [JStr "role content"] eq_refl eq_refl)).
Defined.

Lemma render_page_returns_only_if_witness :
  list_truthy numeric_tool_calls = true /\
  forallb collectable numeric_tool_calls && forallb viewable numeric_tool_calls
  = false /\
  exists e,
    render_page sample_frame sample_series sample_series sample_mean
      sample_chat_message (map JObj numeric_tool_calls) = Raise e.
Proof.
  split; [reflexivity|]. split; [reflexivity|].
  exact (proj2 (render_page_returns_only_if (list json) nat
                  sample_frame sample_series sample_series sample_mean
                  sample_chat_message numeric_tool_calls eq_refl) eq_refl).
Defined.

Lemma page_of_accepted_upload_witness :
  parse_conversation (JArr (map JObj example_two_messages))
  = (map JObj example_two_messages, []) /\
  forallb well_formed_tool_calls example_two_messages = true /\
  exists items,
    main sample_frame sample_series sample_series sample_mean sample_chat_message
      initial_state (Some (Ok (JArr (map JObj example_two_messages))))
    = (stored (map JObj example_two_messages),
       [st_success "File uploaded successfully!"], Ok items) /\
    In (st_metric "Tool Calls" (Some 2%Z)) items.
Proof.
  split; [reflexivity|]. split; [reflexivity|].
  eexists. split; [reflexivity|].
  apply (page_of_accepted_upload (list json) nat
           sample_frame sample_series sample_series sample_mean sample_chat_message
           initial_state (stored (map JObj example_two_messages))
           example_two_messages [st_success "File uploaded successfully!"]);
    reflexivity.
Defined.
